(** * mozci: cached access to buildjson archives and to the repository registry

    A shallow embedding of [mozci/buildjson.py] ([_daily_jobs] and
    [query_buildjson_info]) and of the repository-registry cache that
    [test/test_buildapi.py] exercises ([query_repositories],
    [query_repository], [query_repo_url]).

    Python values are JSON-shaped values; a Python function that reads or
    writes the file system or calls [requests.get] is a function from a
    [world] to a result and a new world; a raised exception is [Raise]. *)

From Stdlib Require Import ZArith String Ascii List Bool Lia.
From Stdlib Require Import Floats.SpecFloat.
From stdpp Require Import gmap strings list.

Set Warnings "-register-all".
Local Open Scope Z_scope.

(** ** Python values, as [json.load] builds them *)

Inductive value : Type :=
  | JNull
  | JBool (b : bool)
  | JInt (n : Z)
  | JFloat (f : spec_float)
  | JStr (s : string)
  | JList (l : list value)
  | JObj (m : gmap string value).

(** The exceptions the modelled code can raise. [RequestException] stands
    for whatever [requests.get] raises when the transfer fails. *)
Inductive exn : Type :=
  | AssertionError
  | KeyError (key : string)
  | TypeError
  | ValueError
  | IOError
  | RequestException.

Inductive result (A : Type) : Type :=
  | Ok (a : A)
  | Raise (e : exn).
Arguments Ok {A} a.
Arguments Raise {A} e.

#[global] Instance result_ret : MRet result := fun A a => Ok a.
#[global] Instance result_bind : MBind result := fun A B f r =>
  match r with
  | Ok a => f a
  | Raise e => Raise e
  end.

(** [type(v) is int]: an exact type test; [bool] and [float] are other
    types. Ints are unbounded, as in Python 3. *)
Definition type_is_int (v : value) : bool :=
  match v with
  | JInt _ => true
  | _ => false
  end.

(** [n == f] for an int [n] and a float [f]: Python compares the exact
    mathematical values. *)
Definition float_eq_int (f : spec_float) (n : Z) : bool :=
  match f with
  | S754_zero _ => n =? 0
  | S754_infinity _ => false
  | S754_nan => false
  | S754_finite s m e =>
      let sm := if s then Z.neg m else Z.pos m in
      if 0 <=? e then n =? sm * 2 ^ e
      else (Z.pos m mod 2 ^ (- e) =? 0) && (n =? sm / 2 ^ (- e))
  end.

(** [n == v] for an int [n]: numbers compare by value ([True == 1]), every
    other kind of value is unequal to an int. It never raises. *)
Definition py_eq_int (n : Z) (v : value) : bool :=
  match v with
  | JInt k => n =? k
  | JBool b => n =? (if b then 1 else 0)
  | JFloat f => float_eq_int f n
  | _ => false
  end.

(** [v[key]] for a string [key]: only a dict can be indexed by a string. *)
Definition getitem (v : value) (key : string) : result value :=
  match v with
  | JObj m =>
      match m !! key with
      | Some x => Ok x
      | None => Raise (KeyError key)
      end
  | _ => Raise TypeError
  end.

(** [n in v] for an int [n]: a list is searched with [==]; a dict is
    searched among its keys, which are strings; [int in str] and a
    non-container raise [TypeError]. *)
Definition contains (v : value) (n : Z) : result bool :=
  match v with
  | JList l => Ok (existsb (py_eq_int n) l)
  | JObj _ => Ok false
  | _ => Raise TypeError
  end.

(** Characters of a string, each as a one-character string. *)
Fixpoint string_chars (s : string) : list value :=
  match s with
  | EmptyString => []
  | String c s' => JStr (String c EmptyString) :: string_chars s'
  end.

(** [for x in v]: the items a [for] loop visits. *)
Definition iter (v : value) : result (list value) :=
  match v with
  | JList l => Ok l
  | JObj m => Ok (JStr <$> (map_to_list m).*1)
  | JStr s => Ok (string_chars s)
  | _ => Raise TypeError
  end.

(** ** The world: local files and the remote server *)

Record response : Type := { status_code : Z; content : string }.

(** What the program cannot change: the host's time zone (seconds east of
    UTC in force at a given instant) and what the server answers to the
    [k]-th request of the process ([None]: the transfer fails). *)
Record host : Type := {
  utcoffset : Z -> Z;
  remote : nat -> string -> option response
}.

(** What the program changes: the files of the working directory, which
    are regular files in a writable directory, and the requests issued so
    far, each with its outcome. *)
Record world : Type := {
  files : gmap string string;
  requests_log : list (string * option response)
}.

Definition M (A : Type) : Type := world -> result A * world.

#[global] Instance M_ret : MRet M := fun A a w => (Ok a, w).
#[global] Instance M_bind : MBind M := fun A B f c w =>
  match c w with
  | (Ok a, w') => f a w'
  | (Raise e, w') => (Raise e, w')
  end.

Definition lift {A : Type} (r : result A) : M A := fun w => (r, w).

Fixpoint for_each {A : Type} (body : A -> M unit) (l : list A) : M unit :=
  match l with
  | [] => mret tt
  | x :: l' => _ ← body x; for_each body l'
  end.

(** ** [datetime.fromtimestamp(t).strftime('%Y-%m-%d')] *)

(** Day number since 1970-01-01 to (year, month, day) of the proleptic
    Gregorian calendar. *)
Definition civil_from_days (days : Z) : Z * Z * Z :=
  let z := days + 719468 in
  let era := z / 146097 in
  let doe := z - era * 146097 in
  let yoe := (doe - doe / 1460 + doe / 36524 - doe / 146096) / 365 in
  let doy := doe - (365 * yoe + yoe / 4 - yoe / 100) in
  let mp := (5 * doy + 2) / 153 in
  let d := doy - (153 * mp + 2) / 5 + 1 in
  let m := if mp <? 10 then mp + 3 else mp - 9 in
  let y := yoe + era * 400 + (if m <=? 2 then 1 else 0) in
  (y, m, d).

Definition digit (n : Z) : ascii := ascii_of_nat (48 + Z.to_nat (n mod 10)).

(** [n] in decimal on [width] digits, zero padded. *)
Fixpoint zfill (width : nat) (n : Z) : string :=
  match width with
  | O => EmptyString
  | S w => zfill w (n / 10) +:+ String (digit n) EmptyString
  end.

(** [strftime('%Y-%m-%d')]. For years below 1000 some C libraries write
    the year without padding; the names stay different for different
    days. *)
Definition strftime_Ymd (date : Z * Z * Z) : string :=
  let '(y, m, d) := date in
  zfill 4 y +:+ "-" +:+ zfill 2 m +:+ "-" +:+ zfill 2 d.

(** ** [requests] and the response body *)

Fixpoint string_take (n : nat) (s : string) : string :=
  match n, s with
  | S k, String c s' => String c (string_take k s')
  | _, _ => EmptyString
  end.

Fixpoint string_drop (n : nat) (s : string) : string :=
  match n, s with
  | S k, String _ s' => string_drop k s'
  | _, _ => s
  end.

Fixpoint chunks (fuel chunk_size : nat) (s : string) : list string :=
  match fuel, s with
  | S k, String _ _ =>
      string_take chunk_size s :: chunks k chunk_size (string_drop chunk_size s)
  | _, _ => []
  end.

(** [r.iter_content(chunk_size)]: the body in pieces of [chunk_size]. *)
Definition iter_content (r : response) (chunk_size : nat) : list string :=
  chunks (String.length (content r)) chunk_size (content r).

Definition BUILDJSON_DATA : string :=
  "http://builddata.pub.build.mozilla.org/builddata/buildjson".

Section Buildjson.

(** [json.loads], the decoder of the standard library: [None] when the
    text is not a JSON document. *)
Variable json_loads : string -> option value.
Variable h : host.

(** Local calendar day of a unix timestamp; [datetime] only has the years
    1 to 9999. Where exactly the interpreter draws the line at the two
    ends of that range, and what it raises for instants its platform
    cannot convert at all, differs between interpreters and platforms and
    is not modelled: the statements below are about instants that have a
    date. *)
Definition fromtimestamp (unix_timestamp : Z) : result (Z * Z * Z) :=
  let local := unix_timestamp + utcoffset h unix_timestamp in
  let '(y, m, d) := civil_from_days (local / 86400) in
  if (1 <=? y) && (y <=? 9999) then Ok (y, m, d) else Raise ValueError.

Definition os_path_exists (path : string) : M bool :=
  fun w => (Ok (bool_decide (is_Some (files w !! path))), w).

(** [requests.get(url)]: the request is logged with its outcome. *)
Definition requests_get (url : string) : M response :=
  fun w =>
    let answer := remote h (length (requests_log w)) url in
    let w' := {| files := files w;
                 requests_log := requests_log w ++ [(url, answer)] |} in
    match answer with
    | Some r => (Ok r, w')
    | None => (Raise RequestException, w')
    end.

(** [open(path, 'wb')]: the file is created or truncated. *)
Definition open_wb (path : string) : M unit :=
  fun w => (Ok tt, {| files := <[path := EmptyString]> (files w);
                      requests_log := requests_log w |}).

(** [fd.write(chunk)] on the file opened at [path]. *)
Definition fd_write (path : string) (chunk : string) : M unit :=
  fun w =>
    match files w !! path with
    | Some old =>
        (Ok tt, {| files := <[path := old +:+ chunk]> (files w);
                   requests_log := requests_log w |})
    | None => (Raise IOError, w)
    end.

(** Decoding a text: [ValueError] when it is not a JSON document. *)
Definition decode (text : string) : result value :=
  match json_loads text with
  | Some v => Ok v
  | None => Raise ValueError
  end.

(** [json.load(open(path))]. *)
Definition json_load (path : string) : M value :=
  fun w =>
    match files w !! path with
    | Some text => (decode text, w)
    | None => (Raise IOError, w)
    end.

Definition data_file_of (date : string) : string :=
  "builds-" +:+ date +:+ ".js".

Definition url_of (data_file : string) : string :=
  BUILDJSON_DATA +:+ "/" +:+ data_file +:+ ".gz".

Definition _daily_jobs (unix_timestamp : Z) : M value :=
  day ← lift (fromtimestamp unix_timestamp);
  let date := strftime_Ymd day in
  let data_file := data_file_of date in
  present ← os_path_exists data_file;
  _ ← (if negb present then
         let url := url_of data_file in
         r ← requests_get url;
         _ ← open_wb data_file;
         for_each (fd_write data_file) (iter_content r 1024)
       else mret tt);
  json_load data_file.

(** The [for job in builds] loop; falling off its end, the function
    returns [None]. *)
Fixpoint scan_builds (request_id : Z) (builds : list value) : result value :=
  match builds with
  | [] => Ok JNull
  | job :: rest =>
      ids ← getitem job "request_ids";
      found ← contains ids request_id;
      if found : bool then Ok job else scan_builds request_id rest
  end.

(** [assert type(v) is int]; the int is handed on. *)
Definition assert_int (v : value) : result Z :=
  match v with
  | JInt n => Ok n
  | _ => Raise AssertionError
  end.

(** The calls to [log.debug] have no effect on the result and are left
    out. *)
Definition query_buildjson_info (claimed_at request_id : value) : M value :=
  rid ← lift (assert_int request_id);
  ts ← lift (assert_int claimed_at);
  status_data ← _daily_jobs ts;
  lift (builds ← getitem status_data "builds";
        jobs ← iter builds;
        scan_builds rid jobs).

(** A process that calls [_daily_jobs] for one timestamp after another;
    the results are kept in call order. *)
Fixpoint daily_jobs_run (timestamps : list Z) (w : world)
  : list (result value) * world :=
  match timestamps with
  | [] => ([], w)
  | t :: rest =>
      let '(r, w1) := _daily_jobs t w in
      let '(rs, w2) := daily_jobs_run rest w1 in
      (r :: rs, w2)
  end.

(** The local file [_daily_jobs] uses for a timestamp. *)
Definition data_file_at (unix_timestamp : Z) : result string :=
  day ← fromtimestamp unix_timestamp;
  Ok (data_file_of (strftime_Ymd day)).

(** The ways a call of [_daily_jobs] changes the world: the timestamp has
    no date; the archive is on disk; the transfer fails; the archive is
    fetched and stored. *)
Inductive daily_jobs_step (t : Z) (w : world) : result value -> world -> Prop :=
  | step_out_of_range e :
      fromtimestamp t = Raise e ->
      daily_jobs_step t w (Raise e) w
  | step_cached f text :
      data_file_at t = Ok f ->
      files w !! f = Some text ->
      daily_jobs_step t w (decode text) w
  | step_transfer_failed f :
      data_file_at t = Ok f ->
      files w !! f = None ->
      remote h (length (requests_log w)) (url_of f) = None ->
      daily_jobs_step t w (Raise RequestException)
        {| files := files w;
           requests_log := requests_log w ++ [(url_of f, None)] |}
  | step_fetched f r :
      data_file_at t = Ok f ->
      files w !! f = None ->
      remote h (length (requests_log w)) (url_of f) = Some r ->
      daily_jobs_step t w (decode (content r))
        {| files := <[f := content r]> (files w);
           requests_log := requests_log w ++ [(url_of f, Some r)] |}.

End Buildjson.

(** ** Vocabulary of the statements about job records *)

(** The [request_ids] of a record of the documented shape: a dict whose
    [request_ids] entry is a list. *)
Definition request_ids_of (job : value) : option (list value) :=
  match job with
  | JObj m =>
      match m !! "request_ids" with
      | Some (JList ids) => Some ids
      | _ => None
      end
  | _ => None
  end.

Definition is_job_record (job : value) : Prop := is_Some (request_ids_of job).

(** The record is addressed by [request_id]. *)
Definition job_matches (request_id : Z) (job : value) : bool :=
  match request_ids_of job with
  | Some ids => existsb (py_eq_int request_id) ids
  | None => false
  end.

(** Requests for [url] that the server answered. *)
Definition answered (url : string) (entry : string * option response) : bool :=
  bool_decide (entry.1 = url) && bool_decide (is_Some entry.2).

Definition fetches (url : string) (log : list (string * option response)) : nat :=
  length (List.filter (answered url) log).

(** ** The repository registry ([mozci.sources.buildapi]) *)

(** Modelled from the spec: the entry of a repository in the registry
    document (section 6); [mozci/sources/buildapi.py] is not part of the
    sources, only its tests are. *)
Record RepositoryInfo : Type := {
  repo : string;
  graph_branches : list string;
  repo_type : string
}.

(** Modelled from the spec: the errors of section 7. The errors of a tier
    reach the caller unchanged, so the resolution order of section 4.4
    raises [TransferError] and [ParseError]; no step of it raises
    [RegistryUnavailable]. *)
Inductive error : Type :=
  | TransferError
  | StorageError
  | ParseError
  | RegistryUnavailable
  | UnknownRepository.

Inductive outcome (A : Type) : Type :=
  | Done (a : A)
  | Fail (e : error).
Arguments Done {A} a.
Arguments Fail {A} e.

(** Modelled from the spec: what a resolution touches outside the memory
    tier, for the call counts of section 8. *)
Inductive access : Type :=
  | DiskProbe
  | DiskRead
  | DiskWrite
  | RemoteFetch.

(** Modelled from the spec: the memory tier (the module global
    [REPOSITORIES] of the tests), the disk snapshot (the text of the file
    at [REPOSITORIES_FILE], when it exists) and the accesses made so far. *)
Record tiers : Type := {
  REPOSITORIES : gmap string RepositoryInfo;
  snapshot : option string;
  accesses : list access
}.

Definition R (A : Type) : Type := tiers -> outcome A * tiers.

#[global] Instance R_ret : MRet R := fun A a s => (Done a, s).
#[global] Instance R_bind : MBind R := fun A B f c s =>
  match c s with
  | (Done a, s') => f a s'
  | (Fail e, s') => (Fail e, s')
  end.

Definition fail {A : Type} (e : error) : R A := fun s => (Fail e, s).

Definition is_network (a : access) : bool :=
  match a with
  | RemoteFetch => true
  | _ => false
  end.

Definition network_calls (s : tiers) : nat :=
  length (List.filter is_network (accesses s)).

Section Buildapi.

(** Modelled from the spec: [load_json] of section 4.1 on the text of the
    snapshot, [None] where it fails with [ParseError]; the code of
    [mozci.sources.buildapi] is not part of the sources. *)
Variable load_json : string -> option (gmap string RepositoryInfo).

(** Modelled from the spec: the JSON text persisted for a registry. *)
Variable dump_json : gmap string RepositoryInfo -> string.

(** Modelled from the spec: the remote tier, as the document the
    endpoint serves to the [k]-th fetch of the process, [None] where the
    fetch fails. *)
Variable remote_registry : nat -> option (gmap string RepositoryInfo).

(** Modelled from the spec: reading the memory tier. *)
Definition read_memory : R (gmap string RepositoryInfo) :=
  fun s => (Done (REPOSITORIES s), s).

(** Modelled from the spec: the memory tier is replaced wholesale. *)
Definition write_memory (reg : gmap string RepositoryInfo) : R unit :=
  fun s => (Done tt, {| REPOSITORIES := reg;
                        snapshot := snapshot s;
                        accesses := accesses s |}).

(** Modelled from the spec: does the disk snapshot file exist. *)
Definition snapshot_exists : R bool :=
  fun s => (Done (bool_decide (is_Some (snapshot s))),
            {| REPOSITORIES := REPOSITORIES s;
               snapshot := snapshot s;
               accesses := accesses s ++ [DiskProbe] |}).

(** Modelled from the spec: loading the disk snapshot; errors propagate
    unchanged (section 7). *)
Definition load_snapshot : R (gmap string RepositoryInfo) :=
  fun s =>
    let s' := {| REPOSITORIES := REPOSITORIES s;
                 snapshot := snapshot s;
                 accesses := accesses s ++ [DiskRead] |} in
    match snapshot s with
    | Some text =>
        match load_json text with
        | Some reg => (Done reg, s')
        | None => (Fail ParseError, s')
        end
    | None => (Fail StorageError, s')
    end.

(** Modelled from the spec: persisting the disk snapshot. *)
Definition persist_snapshot (reg : gmap string RepositoryInfo) : R unit :=
  fun s => (Done tt, {| REPOSITORIES := REPOSITORIES s;
                        snapshot := Some (dump_json reg);
                        accesses := accesses s ++ [DiskWrite] |}).

(** Modelled from the spec: the fetch of the remote registry document;
    errors propagate unchanged (section 7). *)
Definition fetch_remote : R (gmap string RepositoryInfo) :=
  fun s =>
    let s' := {| REPOSITORIES := REPOSITORIES s;
                 snapshot := snapshot s;
                 accesses := accesses s ++ [RemoteFetch] |} in
    match remote_registry (network_calls s) with
    | Some reg => (Done reg, s')
    | None => (Fail TransferError, s')
    end.

(** Modelled from the spec: step (3) of the resolution order of section
    4.4, "fetch from remote, populate memory tier, persist disk snapshot,
    return it". *)
Definition refresh : R (gmap string RepositoryInfo) :=
  reg ← fetch_remote;
  _ ← write_memory reg;
  _ ← persist_snapshot reg;
  mret reg.

(** Modelled from the spec: [get_registry] of section 4.4, under the name
    the tests call it by. With [clobber] the memory and disk tiers are
    skipped; without it the tiers are consulted in the order memory, disk,
    remote, the memory tier counting as populated when it is non-empty. *)
Definition query_repositories (clobber : bool) : R (gmap string RepositoryInfo) :=
  if clobber then refresh
  else
    memory ← read_memory;
    if bool_decide (memory ≠ ∅) then mret memory
    else
      present ← snapshot_exists;
      if present : bool then
        reg ← load_snapshot;
        _ ← write_memory reg;
        mret reg
      else refresh.

(** Modelled from the spec: [get_repository] of section 4.5. *)
Definition query_repository (name : string) : R RepositoryInfo :=
  reg ← query_repositories false;
  match reg !! name with
  | Some info => mret info
  | None => fail UnknownRepository
  end.

(** Modelled from the spec: [get_repository_url] of section 4.5. *)
Definition query_repo_url (name : string) : R string :=
  info ← query_repository name;
  mret (repo info).

End Buildapi.

(** ** Data of the examples *)

Definition dq : string := String (ascii_of_nat 34) EmptyString.
Definition quoted (s : string) : string := dq +:+ s +:+ dq.

(** The archive of 2015-06-01 with the one job of the tests. *)
Definition job_71123549 : value :=
  JObj (<["request_ids" := JList [JInt 71123549]]>
          {["builder_id" := JInt 247721]}).

Definition archive_2015_06_01 : value :=
  JObj {["builds" := JList [job_71123549]]}.

Definition text_2015_06_01 : string :=
  "{" +:+ quoted "builds" +:+ ": [{" +:+ quoted "builder_id" +:+ ": 247721, "
      +:+ quoted "request_ids" +:+ ": [71123549]}]}".

(** An archive of 2015-06-02 where two records share the request id 2
    and the entries after them are not job records. *)
Definition job_a : value :=
  JObj (<["request_ids" := JList [JInt 1; JInt 2]]> {["builder_id" := JInt 5]}).

Definition job_b : value :=
  JObj (<["request_ids" := JList [JInt 2; JInt 3]]> {["builder_id" := JInt 6]}).

Definition archive_2015_06_02 : value :=
  JObj {["builds" := JList [job_a; job_b; JObj {["builder_id" := JInt 7]}; JNull]]}.

Definition text_2015_06_02 : string :=
  "{" +:+ quoted "builds" +:+ ": [{" +:+ quoted "builder_id" +:+ ": 5, "
      +:+ quoted "request_ids" +:+ ": [1, 2]}, {" +:+ quoted "builder_id"
      +:+ ": 6, " +:+ quoted "request_ids" +:+ ": [2, 3]}, {"
      +:+ quoted "builder_id" +:+ ": 7}, null]}".

(** A decoder that knows the documents of the examples. *)
Definition loads_examples (text : string) : option value :=
  if String.eqb text text_2015_06_01 then Some archive_2015_06_01
  else if String.eqb text text_2015_06_02 then Some archive_2015_06_02
  else None.

Definition host_utc : host :=
  {| utcoffset := fun _ => 0; remote := fun _ _ => None |}.

(** A host seven hours west of UTC. *)
Definition host_pdt : host :=
  {| utcoffset := fun _ => -25200; remote := fun _ _ => None |}.

(** A server that has the archive. *)
Definition host_serving : host :=
  {| utcoffset := fun _ => 0;
     remote := fun _ _ => Some {| status_code := 200; content := text_2015_06_01 |} |}.

(** A server that answers 404 to every request. *)
Definition host_404 : host :=
  {| utcoffset := fun _ => 0;
     remote := fun _ _ => Some {| status_code := 404; content := "Not Found" |} |}.

(** A server that cannot be reached for the first request and has the
    archive afterwards. *)
Definition host_flaky : host :=
  {| utcoffset := fun _ => 0;
     remote := fun k _ =>
       match k with
       | O => None
       | S _ => Some {| status_code := 200; content := text_2015_06_01 |}
       end |}.

Definition w_empty : world := {| files := ∅; requests_log := [] |}.

Definition w_cached : world :=
  {| files := <["builds-2015-06-01.js"%string := text_2015_06_01]>
              {["builds-2015-06-02.js"%string := text_2015_06_02]};
     requests_log := [] |}.

(** The world after the flaky server was asked twice for 2015-06-01. *)
Definition w_after_three_calls : world :=
  {| files := {["builds-2015-06-01.js"%string := text_2015_06_01]};
     requests_log :=
       [(url_of "builds-2015-06-01.js", None);
        (url_of "builds-2015-06-01.js",
         Some {| status_code := 200; content := text_2015_06_01 |})] |}.

(** 2015-06-01 13:40:28 UTC, the [claimed_at] of the tests, and two later
    instants of that day; midnight of 2015-06-02 UTC. *)
Definition t_claimed : Z := 1433166028.
Definition t_afternoon : Z := 1433170000.
Definition t_evening : Z := 1433199999.
Definition t_midnight : Z := 1433203200.

(** The registry document of the tests. *)
Definition registry_tests : gmap string RepositoryInfo :=
  <["repo1" := {| repo := "https://hg.mozilla.org/releases/repo1";
                  graph_branches := ["Repo1"%string];
                  repo_type := "hg" |}]>
  {["repo2" := {| repo := "https://hg.mozilla.org/projects/repo2";
                  graph_branches := ["Repo2"%string];
                  repo_type := "hg" |}]}.

(** The other registry of the tests, with its one repository. *)
Definition registry_other : gmap string RepositoryInfo :=
  {["real-repo" := {| repo := "repo"; graph_branches := []; repo_type := "hg" |}]}.

(** A codec that knows the registries of the examples by the number of
    their entries. *)
Definition dump_examples (reg : gmap string RepositoryInfo) : string :=
  match size reg with
  | 0%nat => "{}"
  | 1%nat => "{real-repo}"
  | _ => "{repo1, repo2}"
  end.

Definition load_examples (text : string) : option (gmap string RepositoryInfo) :=
  if String.eqb text "{}" then Some ∅
  else if String.eqb text "{real-repo}" then Some registry_other
  else if String.eqb text "{repo1, repo2}" then Some registry_tests
  else None.

Definition remote_tests (k : nat) : option (gmap string RepositoryInfo) :=
  Some registry_tests.

(** Both caches hold the other registry. *)
Definition tiers_stale : tiers :=
  {| REPOSITORIES := registry_other;
     snapshot := Some (dump_examples registry_other);
     accesses := [] |}.

(** Process start, no snapshot on disk. *)
Definition tiers_cold : tiers :=
  {| REPOSITORIES := ∅; snapshot := None; accesses := [] |}.

(** Process start, a snapshot on disk. *)
Definition tiers_disk : tiers :=
  {| REPOSITORIES := ∅;
     snapshot := Some (dump_examples registry_other);
     accesses := [] |}.

(** ** The calendar, backwards *)

(** (year, month, day) of the proleptic Gregorian calendar to the day
    number since 1970-01-01. *)
Definition days_from_civil (date : Z * Z * Z) : Z :=
  let '(y, m, d) := date in
  let y' := y - (if m <=? 2 then 1 else 0) in
  let era := y' / 400 in
  let yoe := y' - era * 400 in
  let mp := if 2 <? m then m - 3 else m + 9 in
  let doy := (153 * mp + 2) / 5 + d - 1 in
  let doe := yoe * 365 + yoe / 4 - yoe / 100 + doy in
  era * 146097 + doe - 719468.

(** The local day number of an instant on a host. *)
Definition local_day (h : host) (unix_timestamp : Z) : Z :=
  (unix_timestamp + utcoffset h unix_timestamp) / 86400.

(** ** More data for the examples *)

(** Archives of unexpected shapes: a document that is no dict, a dict
    without [builds], and [builds] that are a dict. *)
Definition text_null : string := "null".
Definition text_no_builds : string := "{}".
Definition text_builds_dict : string :=
  "{" +:+ quoted "builds" +:+ ": {" +:+ quoted "a" +:+ ": 1}}".

Definition loads_shapes (text : string) : option value :=
  if String.eqb text text_null then Some JNull
  else if String.eqb text text_no_builds then Some (JObj ∅)
  else if String.eqb text text_builds_dict
       then Some (JObj {["builds" := JObj {["a" := JInt 1]}]})
  else loads_examples text.

(** A directory with these archives for 2015-06-01, 2015-06-02 and
    2015-06-03. *)
Definition w_shapes : world :=
  {| files := <["builds-2015-06-01.js"%string := text_null]>
              (<["builds-2015-06-02.js"%string := text_no_builds]>
               {["builds-2015-06-03.js"%string := text_builds_dict]});
     requests_log := [] |}.

Definition t_next_midnight : Z := 1433289600.

(** An archive of 2015-06-01 whose first record has the key [request_ids]
    with [null] under it, before the record of request 5. *)
Definition job_null_ids : value := JObj {["request_ids" := JNull]}.

Definition job_5 : value := JObj {["request_ids" := JList [JInt 5]]}.

Definition archive_null_ids : value :=
  JObj {["builds" := JList [job_null_ids; job_5]]}.

Definition text_null_ids : string :=
  "{" +:+ quoted "builds" +:+ ": [{" +:+ quoted "request_ids" +:+ ": null}, {"
      +:+ quoted "request_ids" +:+ ": [5]}]}".

Definition loads_null_ids (text : string) : option value :=
  if String.eqb text text_null_ids then Some archive_null_ids else None.

Definition w_null_ids : world :=
  {| files := {["builds-2015-06-01.js"%string := text_null_ids]};
     requests_log := [] |}.

(** The directory after the archive of 2015-06-01 was fetched from the
    server that has it, and after the server that answers 404 was asked. *)
Definition w_fetched : world :=
  {| files := {["builds-2015-06-01.js"%string := text_2015_06_01]};
     requests_log :=
       [(url_of "builds-2015-06-01.js",
         Some {| status_code := 200; content := text_2015_06_01 |})] |}.

Definition w_not_found : world :=
  {| files := {["builds-2015-06-01.js"%string := "Not Found"%string]};
     requests_log :=
       [(url_of "builds-2015-06-01.js",
         Some {| status_code := 404; content := "Not Found" |})] |}.

(** * Facts about [mozci/buildjson.py] *)

(** ** The response body reaches the file whole *)

Lemma string_app_cons (c : ascii) (a b : string) :
  String c a +:+ b = String c (a +:+ b).
Proof. reflexivity. Qed.

Lemma string_take_drop (n : nat) (s : string) :
  string_take n s +:+ string_drop n s = s.
Proof.
  revert s; induction n as [|n IH]; intros [|c s]; simpl; try reflexivity.
  by rewrite string_app_cons, IH.
Qed.

Lemma string_drop_length (n : nat) (s : string) :
  String.length (string_drop n s) = (String.length s - n)%nat.
Proof.
  revert s; induction n as [|n IH]; intros [|c s]; simpl; try lia.
  apply IH.
Qed.

Lemma string_app_assoc (a b c : string) : (a +:+ b) +:+ c = a +:+ (b +:+ c).
Proof.
  induction a as [|x a IH]; [reflexivity |].
  by rewrite !string_app_cons, IH.
Qed.

Lemma string_app_nil_r (a : string) : a +:+ EmptyString = a.
Proof.
  induction a as [|x a IH]; [reflexivity |].
  by rewrite !string_app_cons, IH.
Qed.

Lemma chunks_concat (fuel n : nat) (s : string) :
  (String.length s <= fuel)%nat ->
  foldr String.append EmptyString (chunks fuel (S n) s) = s.
Proof.
  revert s; induction fuel as [|fuel IH]; intros [|c s] Hlen;
    try reflexivity; try (simpl in Hlen; lia).
  cbn [chunks foldr]. rewrite IH.
  - apply string_take_drop.
  - rewrite string_drop_length. simpl in *. lia.
Qed.

Lemma iter_content_concat (r : response) (n : nat) :
  foldr String.append EmptyString (iter_content r (S n)) = content r.
Proof. unfold iter_content. by apply chunks_concat. Qed.

Section BuildjsonFacts.

Variable json_loads : string -> option value.
Variable h : host.

Lemma for_each_fd_write (path : string) (cs : list string) (old : string) (w : world) :
  files w !! path = Some old ->
  for_each (fd_write path) cs w =
    (Ok tt, {| files := <[path := old +:+ foldr String.append EmptyString cs]> (files w);
               requests_log := requests_log w |}).
Proof.
  revert old w; induction cs as [|c cs IH]; intros old w Hold; simpl.
  - rewrite string_app_nil_r, insert_id by done. by destruct w.
  - unfold mbind, M_bind, fd_write at 1. rewrite Hold.
    erewrite IH by (simpl; apply lookup_insert_eq). simpl.
    by rewrite insert_insert_eq, string_app_assoc.
Qed.

(** The four ways a call of [_daily_jobs] can go. *)
Lemma daily_jobs_out_of_range (t : Z) (e : exn) (w : world) :
  fromtimestamp h t = Raise e ->
  _daily_jobs json_loads h t w = (Raise e, w).
Proof. intros H. unfold _daily_jobs, mbind, M_bind, lift. by rewrite H. Qed.

Lemma daily_jobs_cached (t : Z) (day : Z * Z * Z) (text : string) (w : world) :
  fromtimestamp h t = Ok day ->
  files w !! data_file_of (strftime_Ymd day) = Some text ->
  _daily_jobs json_loads h t w = (decode json_loads text, w).
Proof.
  intros Hd Hf. unfold _daily_jobs, mbind, M_bind, lift, os_path_exists, json_load.
  rewrite Hd, Hf. rewrite bool_decide_eq_true_2 by eauto. simpl. by rewrite Hf.
Qed.

Lemma daily_jobs_transfer_failed (t : Z) (day : Z * Z * Z) (w : world) :
  let f := data_file_of (strftime_Ymd day) in
  fromtimestamp h t = Ok day ->
  files w !! f = None ->
  remote h (length (requests_log w)) (url_of f) = None ->
  _daily_jobs json_loads h t w =
    (Raise RequestException,
     {| files := files w;
        requests_log := requests_log w ++ [(url_of f, None)] |}).
Proof.
  intros f Hd Hf Hr. subst f.
  unfold _daily_jobs, mbind, M_bind, lift, os_path_exists, requests_get.
  rewrite Hd, Hf. rewrite bool_decide_eq_false_2 by (intros [? ?]; done).
  simpl. by rewrite Hr.
Qed.

Lemma daily_jobs_fetched (t : Z) (day : Z * Z * Z) (r : response) (w : world) :
  let f := data_file_of (strftime_Ymd day) in
  fromtimestamp h t = Ok day ->
  files w !! f = None ->
  remote h (length (requests_log w)) (url_of f) = Some r ->
  _daily_jobs json_loads h t w =
    (decode json_loads (content r),
     {| files := <[f := content r]> (files w);
        requests_log := requests_log w ++ [(url_of f, Some r)] |}).
Proof.
  intros f Hd Hf Hr. subst f.
  unfold _daily_jobs, mbind, M_bind, lift, os_path_exists, requests_get.
  rewrite Hd, Hf. rewrite bool_decide_eq_false_2 by (intros [? ?]; done).
  simpl. rewrite Hr. unfold open_wb.
  erewrite for_each_fd_write by (simpl; apply lookup_insert_eq). simpl.
  rewrite iter_content_concat, insert_insert_eq.
  unfold json_load. simpl. by rewrite lookup_insert_eq.
Qed.

End BuildjsonFacts.

(** ** The scan of a day's records *)

Lemma job_matches_record (rid : Z) (job : value) :
  job_matches rid job = true -> is_job_record job.
Proof.
  unfold job_matches, is_job_record. destruct (request_ids_of job); [eauto | done].
Qed.

(** One turn of the loop on a record of the documented shape. *)
Lemma scan_builds_record (rid : Z) (job : value) (rest : list value) :
  is_job_record job ->
  scan_builds rid (job :: rest) =
    if job_matches rid job then Ok job else scan_builds rid rest.
Proof.
  intros [ids Hids]. unfold job_matches. rewrite Hids.
  unfold request_ids_of in Hids.
  destruct job as [| | | | | |m]; try discriminate.
  cbn [scan_builds getitem]. unfold mbind, result_bind.
  destruct (m !! "request_ids"%string) as [[| | | | |l|]|]; try discriminate.
  injection Hids as ->. reflexivity.
Qed.

Lemma scan_builds_skip (rid : Z) (pre rest : list value) :
  Forall is_job_record pre ->
  Forall (fun job => job_matches rid job = false) pre ->
  scan_builds rid (pre ++ rest) = scan_builds rid rest.
Proof.
  induction pre as [|job pre IH]; intros Hrec Hno; [reflexivity |].
  inversion Hrec; inversion Hno; subst.
  rewrite <- app_comm_cons, scan_builds_record by assumption.
  destruct (job_matches rid job); [discriminate | auto].
Qed.

Lemma scan_builds_first (rid : Z) (pre post : list value) (job : value) :
  Forall is_job_record pre ->
  Forall (fun j => job_matches rid j = false) pre ->
  job_matches rid job = true ->
  scan_builds rid (pre ++ job :: post) = Ok job.
Proof.
  intros Hrec Hno Hjob. rewrite scan_builds_skip by assumption.
  rewrite scan_builds_record by eauto using job_matches_record.
  by rewrite Hjob.
Qed.

Lemma scan_builds_none (rid : Z) (builds : list value) :
  Forall is_job_record builds ->
  Forall (fun j => job_matches rid j = false) builds ->
  scan_builds rid builds = Ok JNull.
Proof.
  intros Hrec Hno. rewrite <- (app_nil_r builds).
  by rewrite scan_builds_skip.
Qed.

Section QueryFacts.

Variable json_loads : string -> option value.
Variable h : host.

(** With int arguments the function is the scan of the day's [builds]. *)
Lemma query_buildjson_info_scan (ts rid : Z) (w w' : world)
    (status_data : value) (builds : list value) :
  _daily_jobs json_loads h ts w = (Ok status_data, w') ->
  getitem status_data "builds" = Ok (JList builds) ->
  query_buildjson_info json_loads h (JInt ts) (JInt rid) w =
    (scan_builds rid builds, w').
Proof.
  intros Hday Hb. unfold query_buildjson_info, mbind, M_bind, lift. simpl.
  rewrite Hday. simpl. unfold mbind, result_bind. rewrite Hb. reflexivity.
Qed.

(** C1: [query_buildjson_info] takes the day's records from [_daily_jobs]
    and scans them in file order. When every record has the documented
    shape: if no record has [request_id] among its [request_ids], the
    call returns [None] and raises nothing; and the first record that has
    it is returned, whatever follows it, so that of two records sharing a
    request id the earlier one wins. *)
Theorem query_buildjson_info_first_match (ts rid : Z) (w w' : world)
    (status_data : value) (builds : list value) :
  _daily_jobs json_loads h ts w = (Ok status_data, w') ->
  getitem status_data "builds" = Ok (JList builds) ->
  Forall is_job_record builds ->
  (Forall (fun job => job_matches rid job = false) builds ->
   query_buildjson_info json_loads h (JInt ts) (JInt rid) w = (Ok JNull, w'))
  /\ (forall pre job post,
        builds = pre ++ job :: post ->
        Forall (fun j => job_matches rid j = false) pre ->
        job_matches rid job = true ->
        query_buildjson_info json_loads h (JInt ts) (JInt rid) w = (Ok job, w')).
Proof.
  intros Hday Hb Hrec.
  rewrite (query_buildjson_info_scan ts rid w w' status_data builds Hday Hb).
  split.
  - intros Hno. by rewrite scan_builds_none.
  - intros pre job post -> Hno Hjob.
    apply Forall_app in Hrec as [Hpre _].
    by rewrite scan_builds_first.
Qed.

(** C9: a call where [claimed_at] or [request_id] is not of type [int]
    (a float, a string, a bool, ...) fails with [AssertionError]; the
    world is as before the call: no file was looked up, no request sent,
    and the argument was not converted. *)
Theorem query_buildjson_info_requires_ints (claimed_at request_id : value) (w : world) :
  type_is_int claimed_at = false \/ type_is_int request_id = false ->
  query_buildjson_info json_loads h claimed_at request_id w =
    (Raise AssertionError, w).
Proof.
  intros Hty. unfold query_buildjson_info, mbind, M_bind, lift.
  destruct request_id; simpl; try reflexivity.
  destruct claimed_at; simpl; try reflexivity.
  destruct Hty; discriminate.
Qed.

(** C10, as the code has it: the scan stops at the first match. When the
    records up to and including the first one that has [request_id] among
    its [request_ids] are dicts whose [request_ids] entry is a list, that
    record is returned whatever the later entries of [builds] are, records
    without [request_ids] included. *)
Theorem query_buildjson_info_short_circuits (ts rid : Z) (w w' : world)
    (status_data : value) (pre post : list value) (job : value) :
  _daily_jobs json_loads h ts w = (Ok status_data, w') ->
  getitem status_data "builds" = Ok (JList (pre ++ job :: post)) ->
  Forall is_job_record pre ->
  Forall (fun j => job_matches rid j = false) pre ->
  job_matches rid job = true ->
  query_buildjson_info json_loads h (JInt ts) (JInt rid) w = (Ok job, w').
Proof.
  intros Hday Hb Hrec Hno Hjob.
  rewrite (query_buildjson_info_scan ts rid w w' status_data _ Hday Hb).
  by rewrite scan_builds_first.
Qed.

End QueryFacts.

(** C10, as stated, fails: that the records up to the match have the key
    [request_ids] is not enough. With [null] under the key in a record
    before the match, [request_id in job["request_ids"]] raises
    [TypeError] and the match is not returned. *)
Lemma query_buildjson_info_key_is_not_enough :
  ~ (forall (json_loads : string -> option value) (h : host) (ts rid : Z)
            (w w' : world) (status_data : value) (pre post : list value)
            (job : value),
       _daily_jobs json_loads h ts w = (Ok status_data, w') ->
       getitem status_data "builds" = Ok (JList (pre ++ job :: post)) ->
       Forall (fun j => exists m ids, j = JObj m /\ m !! "request_ids" = Some ids)
              pre ->
       Forall (fun j => job_matches rid j = false) pre ->
       (exists m ids, job = JObj m /\ m !! "request_ids" = Some ids) ->
       job_matches rid job = true ->
       query_buildjson_info json_loads h (JInt ts) (JInt rid) w = (Ok job, w')).
Proof.
  intros Hclaim.
  specialize (Hclaim loads_null_ids host_utc t_claimed 5 w_null_ids w_null_ids
                archive_null_ids [job_null_ids] [] job_5).
  assert (Hcall : query_buildjson_info loads_null_ids host_utc (JInt t_claimed)
                    (JInt 5) w_null_ids = (Raise TypeError, w_null_ids))
    by (vm_compute; reflexivity).
  rewrite Hcall in Hclaim. discriminate Hclaim.
  - vm_compute. reflexivity.
  - vm_compute. reflexivity.
  - repeat constructor. exists {["request_ids" := JNull]}, JNull.
    split; [reflexivity | vm_compute; reflexivity].
  - repeat constructor.
  - exists {["request_ids" := JList [JInt 5]]}, (JList [JInt 5]).
    split; [reflexivity | vm_compute; reflexivity].
  - vm_compute. reflexivity.
Qed.

(** ** Archives on disk are reused *)

Lemma string_app_inv_head (a x y : string) : a +:+ x = a +:+ y -> x = y.
Proof.
  induction a as [|c a IH]; [done |].
  rewrite !string_app_cons. intros [=]. auto.
Qed.

Lemma string_app_length (a b : string) :
  String.length (a +:+ b) = (String.length a + String.length b)%nat.
Proof.
  induction a as [|c a IH]; [reflexivity |].
  rewrite string_app_cons. simpl. by rewrite IH.
Qed.

Lemma string_app_inv_tail (x y b : string) : x +:+ b = y +:+ b -> x = y.
Proof.
  revert y; induction x as [|c x IH]; intros [|d y] Heq.
  - reflexivity.
  - apply (f_equal String.length) in Heq.
    rewrite !string_app_length in Heq. simpl in Heq. lia.
  - apply (f_equal String.length) in Heq.
    rewrite !string_app_length in Heq. simpl in Heq. lia.
  - rewrite !string_app_cons in Heq. injection Heq as -> Heq.
    f_equal. by apply IH.
Qed.

Lemma url_of_inj (f1 f2 : string) : url_of f1 = url_of f2 -> f1 = f2.
Proof.
  unfold url_of. intros Heq.
  do 2 apply string_app_inv_head in Heq.
  by apply string_app_inv_tail in Heq.
Qed.

Lemma answered_inv (url : string) (entry : string * option response) :
  answered url entry = true -> entry.1 = url /\ is_Some entry.2.
Proof.
  unfold answered. intros [H1 H2]%andb_true_iff.
  split; [by apply bool_decide_eq_true in H1 | by apply bool_decide_eq_true in H2].
Qed.

Lemma fetches_cons_failed (url u : string) (log : list (string * option response)) :
  fetches url ((u, None) :: log) = fetches url log.
Proof.
  unfold fetches. cbn [List.filter].
  destruct (answered url (u, None)) eqn:E; [|reflexivity].
  apply answered_inv in E as [_ [? ?]]. discriminate.
Qed.

Lemma fetches_cons_other (url u : string) (a : option response)
    (log : list (string * option response)) :
  u ≠ url -> fetches url ((u, a) :: log) = fetches url log.
Proof.
  intros Hne. unfold fetches. cbn [List.filter].
  destruct (answered url (u, a)) eqn:E; [|reflexivity].
  apply answered_inv in E as [? _]. done.
Qed.

Lemma fetches_cons_le (url : string) (entry : string * option response)
    (log : list (string * option response)) :
  (fetches url (entry :: log) <= S (fetches url log))%nat.
Proof.
  unfold fetches. cbn [List.filter].
  destruct (answered url entry); simpl; lia.
Qed.

Lemma fetches_none (url : string) (log : list (string * option response)) :
  (forall entry, entry ∈ log -> entry.1 ≠ url) -> fetches url log = 0%nat.
Proof.
  induction log as [|[u a] log IH]; intros Hno; [reflexivity |].
  rewrite fetches_cons_other.
  - apply IH. intros e He. apply Hno. apply elem_of_cons. by right.
  - apply (Hno (u, a)). apply elem_of_cons. by left.
Qed.

Section ArchiveFacts.

Variable json_loads : string -> option value.
Variable h : host.

Lemma data_file_at_inv (t : Z) (f : string) :
  data_file_at h t = Ok f ->
  exists day, fromtimestamp h t = Ok day /\ f = data_file_of (strftime_Ymd day).
Proof.
  unfold data_file_at, mbind, result_bind.
  destruct (fromtimestamp h t) as [day|e]; [|discriminate].
  intros [= <-]. eauto.
Qed.

Lemma data_file_at_day (t : Z) (day : Z * Z * Z) :
  fromtimestamp h t = Ok day ->
  data_file_at h t = Ok (data_file_of (strftime_Ymd day)).
Proof. intros Hd. unfold data_file_at, mbind, result_bind. by rewrite Hd. Qed.

Lemma daily_jobs_steps (t : Z) (w : world) :
  daily_jobs_step json_loads h t w
    (_daily_jobs json_loads h t w).1 (_daily_jobs json_loads h t w).2.
Proof.
  destruct (fromtimestamp h t) as [day|e] eqn:Hd.
  - pose proof (data_file_at_day t day Hd) as Hf.
    destruct (files w !! data_file_of (strftime_Ymd day)) as [text|] eqn:Hfile.
    + rewrite (daily_jobs_cached json_loads h t day text w Hd Hfile). simpl.
      by eapply step_cached.
    + destruct (remote h (length (requests_log w))
                  (url_of (data_file_of (strftime_Ymd day)))) as [r|] eqn:Hr.
      * rewrite (daily_jobs_fetched json_loads h t day r w Hd Hfile Hr). simpl.
        by apply step_fetched.
      * rewrite (daily_jobs_transfer_failed json_loads h t day w Hd Hfile Hr). simpl.
        by apply step_transfer_failed.
  - rewrite (daily_jobs_out_of_range json_loads h t e w Hd). simpl.
    by apply step_out_of_range.
Qed.

(** A call that returns a document leaves on disk the text it decoded. *)
Lemma daily_jobs_ok_file (t : Z) (w w' : world) (v : value) (f : string) :
  _daily_jobs json_loads h t w = (Ok v, w') ->
  data_file_at h t = Ok f ->
  exists text, files w' !! f = Some text /\ decode json_loads text = Ok v.
Proof.
  intros Hcall Hf. pose proof (daily_jobs_steps t w) as Hstep.
  rewrite Hcall in Hstep. simpl in Hstep.
  inversion Hstep as [e He|f' text Hf' Hfile|f' Hf' Hfile Hr|f' r Hf' Hfile Hr]; subst.
  - exists text. split; congruence.
  - exists (content r). assert (f' = f) as -> by congruence.
    simpl. by rewrite lookup_insert_eq.
Qed.

(** What a run of calls does to a world: it only appends to the log, keeps
    every archive that was on disk, serves the calls for such an archive
    from it without a request, and gets at most one answer per archive. *)
Lemma daily_jobs_run_spec (tss : list Z) :
  forall (w w' : world) (rs : list (result value)),
  daily_jobs_run json_loads h tss w = (rs, w') ->
  exists new,
    requests_log w' = requests_log w ++ new
    /\ (forall f text,
          files w !! f = Some text ->
          files w' !! f = Some text
          /\ (forall i t, tss !! i = Some t -> data_file_at h t = Ok f ->
                rs !! i = Some (decode json_loads text))
          /\ (forall entry, entry ∈ new -> entry.1 ≠ url_of f))
    /\ (forall f, (fetches (url_of f) new <= 1)%nat).
Proof.
  induction tss as [|t rest IH]; intros w w' rs Hrun.
  - injection Hrun as <- <-. exists []. rewrite app_nil_r.
    repeat split; auto.
    + intros i t Hi. by rewrite lookup_nil in Hi.
    + intros entry Hin. by apply elem_of_nil in Hin.
  - cbn [daily_jobs_run] in Hrun.
    destruct (_daily_jobs json_loads h t w) as [r w1] eqn:Hcall.
    destruct (daily_jobs_run json_loads h rest w1) as [rs' w2] eqn:Hrest.
    injection Hrun as <- <-.
    destruct (IH w1 w2 rs' Hrest) as (new1 & Hlog & Hkeep & Hone).
    pose proof (daily_jobs_steps t w) as Hstep.
    rewrite Hcall in Hstep. simpl in Hstep.
    inversion Hstep as [e He|f0 text0 Hf0 Hfile0|f0 Hf0 Hfile0 Hr0|f0 r0 Hf0 Hfile0 Hr0];
      subst.
    + (* no date: the world is unchanged *)
      exists new1. split; [done|]. split; [|done].
      intros f text Hfile. destruct (Hkeep f text Hfile) as (Hk1 & Hk2 & Hk3).
      repeat split; auto.
      intros [|i] t' Hi Hf; simpl in *; [|eauto].
      injection Hi as ->. apply data_file_at_inv in Hf as (day & Hd & _).
      congruence.
    + (* served from disk: the world is unchanged *)
      exists new1. split; [done|]. split; [|done].
      intros f text Hfile. destruct (Hkeep f text Hfile) as (Hk1 & Hk2 & Hk3).
      repeat split; auto.
      intros [|i] t' Hi Hf; simpl in *; [|eauto].
      injection Hi as ->. congruence.
    + (* the transfer failed *)
      exists ((url_of f0, None) :: new1). simpl in Hlog.
      split; [by rewrite Hlog, <- app_assoc|]. split.
      * intros f text Hfile. destruct (Hkeep f text Hfile) as (Hk1 & Hk2 & Hk3).
        assert (f ≠ f0) as Hne by congruence.
        repeat split; auto.
        -- intros [|i] t' Hi Hf; simpl in *; [|eauto].
           injection Hi as ->. congruence.
        -- intros entry [->|Hin]%elem_of_cons; [|auto].
           simpl. intros Heq%url_of_inj. congruence.
      * intros f. by rewrite fetches_cons_failed.
    + (* the archive was fetched and stored *)
      exists ((url_of f0, Some r0) :: new1). simpl in Hlog.
      split; [by rewrite Hlog, <- app_assoc|]. split.
      * intros f text Hfile.
        assert (f ≠ f0) as Hne by congruence.
        destruct (Hkeep f text) as (Hk1 & Hk2 & Hk3).
        { simpl. by rewrite lookup_insert_ne. }
        repeat split; auto.
        -- intros [|i] t' Hi Hf; simpl in *; [|eauto].
           injection Hi as ->. congruence.
        -- intros entry [->|Hin]%elem_of_cons; [|auto].
           simpl. intros Heq%url_of_inj. congruence.
      * intros f. destruct (decide (f = f0)) as [->|Hne].
        -- destruct (Hkeep f0 (content r0)) as (_ & _ & Hk3).
           { simpl. apply lookup_insert_eq. }
           pose proof (fetches_cons_le (url_of f0) (url_of f0, Some r0) new1).
           rewrite (fetches_none (url_of f0) new1 Hk3) in *. lia.
        -- rewrite fetches_cons_other; [apply Hone|].
           intros Heq%url_of_inj. congruence.
Qed.

(** C4: in any run of calls, an archive file that is on disk stays as it
    is; every later call for a timestamp of its date returns the decoded
    file and sends no request for it; the requests of the run that the
    server answered are at most one per date; and two calls for timestamps
    of one date that both return a document return the same document. *)
Theorem daily_jobs_archive_fetched_once (tss : list Z) (w w' : world)
    (rs : list (result value)) :
  daily_jobs_run json_loads h tss w = (rs, w') ->
  exists new,
    requests_log w' = requests_log w ++ new
    /\ (forall f text,
          files w !! f = Some text ->
          files w' !! f = Some text
          /\ (forall i t, tss !! i = Some t -> data_file_at h t = Ok f ->
                rs !! i = Some (decode json_loads text))
          /\ (forall entry, entry ∈ new -> entry.1 ≠ url_of f))
    /\ (forall f, (fetches (url_of f) new <= 1)%nat)
    /\ (forall i j ti tj f vi vj,
          tss !! i = Some ti -> tss !! j = Some tj ->
          data_file_at h ti = Ok f -> data_file_at h tj = Ok f ->
          rs !! i = Some (Ok vi) -> rs !! j = Some (Ok vj) ->
          vi = vj).
Proof.
  intros Hrun.
  destruct (daily_jobs_run_spec tss w w' rs Hrun) as (new & Hlog & Hkeep & Hone).
  exists new. split; [done|]. split; [done|]. split; [done|].
  assert (Hlt : forall tss w w' rs i j ti tj f vi vj,
    daily_jobs_run json_loads h tss w = (rs, w') ->
    (i < j)%nat ->
    tss !! i = Some ti -> tss !! j = Some tj ->
    data_file_at h ti = Ok f -> data_file_at h tj = Ok f ->
    rs !! i = Some (Ok vi) -> rs !! j = Some (Ok vj) -> vi = vj).
  { clear. induction tss as [|t rest IH]; intros w w' rs i j ti tj f vi vj Hrun Hij.
    - intros Hi. by rewrite lookup_nil in Hi.
    - cbn [daily_jobs_run] in Hrun.
      destruct (_daily_jobs json_loads h t w) as [r w1] eqn:Hcall.
      destruct (daily_jobs_run json_loads h rest w1) as [rs' w2] eqn:Hrest.
      injection Hrun as <- <-.
      destruct j as [|j]; [lia|]. destruct i as [|i]; simpl.
      + intros [= ->] Htj Hfi Hfj [= ->] Hvj.
        destruct (daily_jobs_ok_file ti w w1 vi f Hcall Hfi) as (text & Hfile & Hdec).
        destruct (daily_jobs_run_spec rest w1 w2 rs' Hrest) as (new1 & _ & Hkeep' & _).
        destruct (Hkeep' f text Hfile) as (_ & Hserve & _).
        rewrite (Hserve j tj Htj Hfj), Hdec in Hvj. congruence.
      + intros Hti Htj. eapply (IH w1 w2 rs' i j); eauto. lia. }
  intros i j ti tj f vi vj Hi Hj Hfi Hfj Hvi Hvj.
  destruct (lt_eq_lt_dec i j) as [[Hlt'| ->]|Hgt].
  - eapply (Hlt tss w w' rs i j); eauto.
  - congruence.
  - symmetry. eapply (Hlt tss w w' rs j i); eauto.
Qed.

End ArchiveFacts.

(** ** The calendar day and failed transfers *)

Lemma fromtimestamp_local (h : host) (t : Z) (day : Z * Z * Z) :
  fromtimestamp h t = Ok day ->
  day = civil_from_days ((t + utcoffset h t) / 86400).
Proof.
  unfold fromtimestamp.
  destruct (civil_from_days ((t + utcoffset h t) / 86400)) as [[y m] d].
  destruct ((1 <=? y) && (y <=? 9999)); [|discriminate].
  by intros [= <-].
Qed.

Lemma fromtimestamp_same_offset (h1 h2 : host) (t : Z) :
  utcoffset h1 t = utcoffset h2 t -> fromtimestamp h1 t = fromtimestamp h2 t.
Proof. intros Hoff. unfold fromtimestamp. by rewrite Hoff. Qed.

Section ZoneAndFailureFacts.

Variable json_loads : string -> option value.

(** C5, as the code has it: the calendar day is the one of the host's
    local time, the day of [t + utcoffset]. The date, and with it the
    local file name and the remote locator, depends on the timestamp and
    on the host's UTC offset at that instant only: on two hosts with the
    same offset, whose server answers alike, a call does the same. *)
Theorem daily_jobs_date_is_host_local (h1 h2 : host) (t : Z) :
  utcoffset h1 t = utcoffset h2 t ->
  (forall day, fromtimestamp h1 t = Ok day ->
     day = civil_from_days ((t + utcoffset h1 t) / 86400))
  /\ data_file_at h1 t = data_file_at h2 t
  /\ (forall w,
        (forall k url, remote h1 k url = remote h2 k url) ->
        _daily_jobs json_loads h1 t w = _daily_jobs json_loads h2 t w).
Proof.
  intros Hoff. pose proof (fromtimestamp_same_offset h1 h2 t Hoff) as Hdate.
  split; [apply fromtimestamp_local|]. split.
  - unfold data_file_at. by rewrite Hdate.
  - intros w Hremote.
    unfold _daily_jobs, mbind, M_bind, lift, requests_get. rewrite Hdate.
    destruct (fromtimestamp h2 t) as [day|e]; [|reflexivity].
    unfold os_path_exists. simpl.
    destruct (bool_decide _); simpl; [reflexivity|].
    by rewrite Hremote.
Qed.

(** C6, as the code has it: when the transfer itself fails, the exception
    of [requests.get] reaches the caller, the files are as before, so no
    local file exists for the date, and the next call for the date sends
    the request again. *)
Theorem daily_jobs_transfer_failure_not_cached (h : host) (t : Z) (w : world)
    (f : string) :
  data_file_at h t = Ok f ->
  files w !! f = None ->
  remote h (length (requests_log w)) (url_of f) = None ->
  exists w',
    _daily_jobs json_loads h t w = (Raise RequestException, w')
    /\ files w' = files w
    /\ requests_log w' = requests_log w ++ [(url_of f, None)]
    /\ (forall t2, data_file_at h t2 = Ok f ->
         exists answer,
           requests_log (_daily_jobs json_loads h t2 w').2 =
             requests_log w' ++ [(url_of f, answer)]).
Proof.
  intros Hf Hfile Hremote.
  apply data_file_at_inv in Hf as (day & Hd & ->).
  eexists. split; [by apply daily_jobs_transfer_failed|].
  split; [done|]. split; [done|].
  intros t2 (day2 & Hd2 & Heq)%data_file_at_inv. rewrite Heq in *.
  match goal with
  | |- context [_daily_jobs _ _ _ ?w1] => set (w' := w1)
  end.
  destruct (remote h (length (requests_log w'))
              (url_of (data_file_of (strftime_Ymd day2)))) as [r|] eqn:Hr.
  - exists (Some r).
    by rewrite (daily_jobs_fetched json_loads h t2 day2 r w' Hd2 Hfile Hr).
  - exists None.
    by rewrite (daily_jobs_transfer_failed json_loads h t2 day2 w' Hd2 Hfile Hr).
Qed.

End ZoneAndFailureFacts.

(** C5, as stated, fails: at 2015-06-02 00:00:00 UTC a host on UTC uses
    [builds-2015-06-02.js] and a host seven hours west of it uses
    [builds-2015-06-01.js]. *)
Lemma daily_jobs_date_varies_with_host_zone :
  ~ (forall (h1 h2 : host) (t : Z), data_file_at h1 t = data_file_at h2 t).
Proof.
  intros Hsame. specialize (Hsame host_utc host_pdt t_midnight).
  vm_compute in Hsame. discriminate.
Qed.

(** C6, as stated, fails for a response with an error status: its body is
    stored as the archive of the day, the call fails with the decoder's
    [ValueError], and the file is there afterwards. *)
Lemma daily_jobs_stores_error_response :
  ~ (forall (json_loads : string -> option value) (h : host) (t : Z)
            (w : world) (f : string),
       data_file_at h t = Ok f ->
       files w !! f = None ->
       (forall r, remote h (length (requests_log w)) (url_of f) = Some r ->
                  ~ (200 <= status_code r < 300)) ->
       exists w',
         _daily_jobs json_loads h t w = (Raise RequestException, w')
         /\ files w' !! f = None).
Proof.
  intros Hclaim.
  destruct (Hclaim loads_examples host_404 t_claimed w_empty
              "builds-2015-06-01.js"%string) as (w' & Hcall & _).
  - reflexivity.
  - reflexivity.
  - intros r [= <-]. simpl. lia.
  - vm_compute in Hcall. discriminate.
Qed.

(** * Facts about the repository registry *)

Lemma network_calls_app (s : tiers) (l : list access) (m : gmap string RepositoryInfo)
    (d : option string) :
  network_calls {| REPOSITORIES := m; snapshot := d; accesses := accesses s ++ l |} =
    (network_calls s + length (List.filter is_network l))%nat.
Proof. unfold network_calls. simpl. by rewrite List.filter_app, length_app. Qed.

Section BuildapiFacts.

Variable load_json : string -> option (gmap string RepositoryInfo).
Variable dump_json : gmap string RepositoryInfo -> string.
Variable remote_registry : nat -> option (gmap string RepositoryInfo).

(** The three tiers, one lemma each. *)
Lemma refresh_done (s : tiers) (payload : gmap string RepositoryInfo) :
  remote_registry (network_calls s) = Some payload ->
  refresh dump_json remote_registry s =
    (Done payload,
     {| REPOSITORIES := payload;
        snapshot := Some (dump_json payload);
        accesses := (accesses s ++ [RemoteFetch]) ++ [DiskWrite] |}).
Proof.
  intros Hr. unfold refresh, mbind, R_bind, fetch_remote.
  rewrite Hr. reflexivity.
Qed.

Lemma refresh_failed (s : tiers) :
  remote_registry (network_calls s) = None ->
  refresh dump_json remote_registry s =
    (Fail TransferError,
     {| REPOSITORIES := REPOSITORIES s;
        snapshot := snapshot s;
        accesses := accesses s ++ [RemoteFetch] |}).
Proof.
  intros Hr. unfold refresh, mbind, R_bind, fetch_remote.
  rewrite Hr. reflexivity.
Qed.

Lemma query_repositories_memory (s : tiers) :
  REPOSITORIES s ≠ ∅ ->
  query_repositories load_json dump_json remote_registry false s = (Done (REPOSITORIES s), s).
Proof.
  intros Hne. unfold query_repositories, mbind, R_bind, read_memory.
  by rewrite bool_decide_eq_true_2.
Qed.

Lemma query_repositories_disk (s : tiers) (text : string) :
  REPOSITORIES s = ∅ ->
  snapshot s = Some text ->
  query_repositories load_json dump_json remote_registry false s =
    match load_json text with
    | Some reg =>
        (Done reg,
         {| REPOSITORIES := reg;
            snapshot := Some text;
            accesses := (accesses s ++ [DiskProbe]) ++ [DiskRead] |})
    | None =>
        (Fail ParseError,
         {| REPOSITORIES := REPOSITORIES s;
            snapshot := Some text;
            accesses := (accesses s ++ [DiskProbe]) ++ [DiskRead] |})
    end.
Proof.
  intros Hempty Hdisk.
  unfold query_repositories, mbind, R_bind, read_memory, snapshot_exists.
  rewrite bool_decide_eq_false_2 by (intros Hne; by apply Hne).
  rewrite Hdisk. rewrite bool_decide_eq_true_2 by eauto.
  unfold load_snapshot. simpl.
  by destruct (load_json text).
Qed.

Lemma query_repositories_remote (s : tiers) :
  REPOSITORIES s = ∅ ->
  snapshot s = None ->
  query_repositories load_json dump_json remote_registry false s =
    refresh dump_json remote_registry {| REPOSITORIES := REPOSITORIES s;
               snapshot := snapshot s;
               accesses := accesses s ++ [DiskProbe] |}.
Proof.
  intros Hempty Hdisk.
  unfold query_repositories, mbind, R_bind, read_memory, snapshot_exists.
  rewrite bool_decide_eq_false_2 by (intros Hne; by apply Hne).
  rewrite Hdisk. by rewrite bool_decide_eq_false_2 by (intros [? ?]; done).
Qed.

(** C2: with [clobber] a remote fetch is issued whatever the tiers hold;
    when the remote serves a payload, the memory tier and the disk
    snapshot are overwritten with it and it is the value returned. *)
Theorem query_repositories_clobber (s : tiers) :
  network_calls (query_repositories load_json dump_json remote_registry true s).2
    = S (network_calls s)
  /\ (forall payload,
        remote_registry (network_calls s) = Some payload ->
        exists s',
          query_repositories load_json dump_json remote_registry true s = (Done payload, s')
          /\ REPOSITORIES s' = payload
          /\ snapshot s' = Some (dump_json payload)
          /\ accesses s' = accesses s ++ [RemoteFetch; DiskWrite]).
Proof.
  unfold query_repositories. split.
  - destruct (remote_registry (network_calls s)) as [payload|] eqn:Hr.
    + rewrite (refresh_done s payload Hr). simpl.
      rewrite <- app_assoc, network_calls_app. simpl. lia.
    + rewrite (refresh_failed s Hr). simpl.
      rewrite network_calls_app. simpl. lia.
  - intros payload Hr. rewrite (refresh_done s payload Hr).
    eexists. split; [reflexivity|]. simpl. by rewrite <- app_assoc.
Qed.

(** C3: without [clobber], a non-empty memory tier is returned and
    nothing else is touched; with an empty memory tier and a snapshot on
    disk, the loaded snapshot is returned and no network call is made;
    a network call is made only when the memory tier is empty and there
    is no snapshot on disk. *)
Theorem query_repositories_resolution_order (s : tiers) :
  (REPOSITORIES s ≠ ∅ ->
   query_repositories load_json dump_json remote_registry false s
     = (Done (REPOSITORIES s), s))
  /\ (forall text,
        REPOSITORIES s = ∅ ->
        snapshot s = Some text ->
        network_calls (query_repositories load_json dump_json remote_registry false s).2
          = network_calls s
        /\ (forall reg, load_json text = Some reg ->
              (query_repositories load_json dump_json remote_registry false s).1
                = Done reg))
  /\ (network_calls (query_repositories load_json dump_json remote_registry false s).2
        ≠ network_calls s ->
      REPOSITORIES s = ∅ /\ snapshot s = None).
Proof.
  split; [apply query_repositories_memory|].
  assert (Hdisk : forall text, REPOSITORIES s = ∅ -> snapshot s = Some text ->
            network_calls
              (query_repositories load_json dump_json remote_registry false s).2
            = network_calls s).
  { intros text Hempty Hsnap.
    rewrite (query_repositories_disk s text Hempty Hsnap).
    destruct (load_json text); simpl;
      rewrite <- app_assoc, network_calls_app; simpl; lia. }
  split.
  - intros text Hempty Hsnap. split; [by eapply Hdisk|].
    intros reg Hload.
    by rewrite (query_repositories_disk s text Hempty Hsnap), Hload.
  - intros Hnet. destruct (decide (REPOSITORIES s = ∅)) as [Hempty|Hne].
    + split; [done|]. destruct (snapshot s) as [text|] eqn:Hsnap; [|done].
      exfalso. apply Hnet. by eapply Hdisk.
    + exfalso. apply Hnet. by rewrite query_repositories_memory.
Qed.

(** C7, as the model has it: after a successful resolution, with or
    without [clobber], the memory tier is the registry returned; when
    that registry is non-empty, the next call without [clobber] returns
    it and touches neither disk nor network; and a resolution that made a
    network call left the returned registry in the disk snapshot. *)
Theorem query_repositories_writes_through (clobber : bool) (s s' : tiers)
    (reg : gmap string RepositoryInfo) :
  query_repositories load_json dump_json remote_registry clobber s = (Done reg, s') ->
  REPOSITORIES s' = reg
  /\ (reg ≠ ∅ -> query_repositories load_json dump_json remote_registry false s' = (Done reg, s'))
  /\ (network_calls s' ≠ network_calls s ->
      snapshot s' = Some (dump_json reg)).
Proof.
  intros Hres.
  assert (Hrefresh : forall s0, refresh dump_json remote_registry s0 = (Done reg, s') ->
            REPOSITORIES s' = reg /\ snapshot s' = Some (dump_json reg)).
  { intros s0 H0.
    destruct (remote_registry (network_calls s0)) as [payload|] eqn:Hr.
    - rewrite (refresh_done s0 payload Hr) in H0. by injection H0 as <- <-.
    - by rewrite (refresh_failed s0 Hr) in H0. }
  assert (Hcases : REPOSITORIES s' = reg
            /\ (network_calls s' ≠ network_calls s ->
                snapshot s' = Some (dump_json reg))).
  { destruct clobber.
    - unfold query_repositories in Hres.
      destruct (Hrefresh s Hres). by split.
    - destruct (decide (REPOSITORIES s = ∅)) as [Hempty|Hne].
      + destruct (snapshot s) as [text|] eqn:Hsnap.
        * rewrite (query_repositories_disk s text Hempty Hsnap) in Hres.
          destruct (load_json text); [|discriminate].
          injection Hres as <- <-. split; [done|].
          intros Hnet. exfalso. apply Hnet.
          rewrite <- app_assoc, network_calls_app. simpl. lia.
        * rewrite (query_repositories_remote s Hempty Hsnap) in Hres.
          destruct (Hrefresh _ Hres). by split.
      + rewrite (query_repositories_memory s Hne) in Hres.
        injection Hres as <- <-. split; [done|]. intros Hnet. by destruct Hnet. }
  destruct Hcases as [Hmem Hdisk]. split; [done|]. split; [|done].
  intros Hne. rewrite <- Hmem. apply query_repositories_memory. by rewrite Hmem.
Qed.

(** C8: on a resolved registry, [query_repo_url] of a name that is in it
    returns the [repo] field of its entry; for a name that is not in it,
    [query_repository] and [query_repo_url] fail with
    [UnknownRepository]. *)
Theorem query_repo_url_lookup (s s' : tiers) (reg : gmap string RepositoryInfo)
    (name : string) :
  query_repositories load_json dump_json remote_registry false s = (Done reg, s') ->
  (forall info, reg !! name = Some info ->
     query_repo_url load_json dump_json remote_registry name s = (Done (repo info), s'))
  /\ (reg !! name = None ->
      query_repository load_json dump_json remote_registry name s
        = (Fail UnknownRepository, s')
      /\ query_repo_url load_json dump_json remote_registry name s
        = (Fail UnknownRepository, s')).
Proof.
  intros Hres. unfold query_repo_url, query_repository, mbind, R_bind.
  rewrite Hres. split.
  - intros info Hin. by rewrite Hin.
  - intros Hout. by rewrite Hout.
Qed.

End BuildapiFacts.

(** C7, as stated, fails for an empty registry: resolved from the remote,
    it leaves the memory tier empty, and the next call reads the disk. *)
Lemma query_repositories_empty_registry_not_memoised :
  ~ (forall (load_json : string -> option (gmap string RepositoryInfo))
            (dump_json : gmap string RepositoryInfo -> string)
            (remote_registry : nat -> option (gmap string RepositoryInfo))
            (clobber : bool) (s s' : tiers) (reg : gmap string RepositoryInfo),
       query_repositories load_json dump_json remote_registry clobber s = (Done reg, s') ->
       REPOSITORIES s' = reg
       /\ query_repositories load_json dump_json remote_registry false s' = (Done reg, s')).
Proof.
  intros Hclaim.
  destruct (Hclaim load_examples dump_examples (fun _ => Some ∅) false tiers_cold
              _ _ eq_refl) as [_ Hnext].
  apply (f_equal (fun x => length (accesses x.2))) in Hnext.
  vm_compute in Hnext. discriminate.
Qed.

(** * The statements on the data of the examples *)

(** The scenario of the tests: the job of request 71123549 is found in the
    archive of its day, request 999 is not. *)
Lemma query_buildjson_info_first_match_witness :
  _daily_jobs loads_examples host_utc t_claimed w_cached
    = (Ok archive_2015_06_01, w_cached)
  /\ query_buildjson_info loads_examples host_utc (JInt t_claimed) (JInt 999) w_cached
    = (Ok JNull, w_cached)
  /\ query_buildjson_info loads_examples host_utc (JInt t_claimed) (JInt 71123549) w_cached
    = (Ok job_71123549, w_cached).
Proof.
  assert (Hday : _daily_jobs loads_examples host_utc t_claimed w_cached
                 = (Ok archive_2015_06_01, w_cached)) by (vm_compute; reflexivity).
  assert (Hbuilds : getitem archive_2015_06_01 "builds" = Ok (JList [job_71123549]))
    by (vm_compute; reflexivity).
  assert (Hrec : Forall is_job_record [job_71123549]).
  { repeat constructor. exists [JInt 71123549]. vm_compute. reflexivity. }
  split; [exact Hday|]. split.
  - apply (query_buildjson_info_first_match loads_examples host_utc t_claimed 999
             w_cached w_cached archive_2015_06_01 [job_71123549] Hday Hbuilds Hrec).
    repeat constructor.
  - apply (query_buildjson_info_first_match loads_examples host_utc t_claimed 71123549
             w_cached w_cached archive_2015_06_01 [job_71123549] Hday Hbuilds Hrec)
      with (pre := []) (post := []).
    + reflexivity.
    + constructor.
    + vm_compute. reflexivity.
Defined.

(** A bool, a float and a string are refused, in either position. *)
Lemma query_buildjson_info_requires_ints_witness :
  query_buildjson_info loads_examples host_utc (JBool true) (JInt 71123549) w_cached
    = (Raise AssertionError, w_cached)
  /\ query_buildjson_info loads_examples host_utc (JInt t_claimed)
       (JFloat (S754_finite false 71123549 0)) w_cached
    = (Raise AssertionError, w_cached)
  /\ query_buildjson_info loads_examples host_utc (JInt t_claimed) (JStr "71123549") w_cached
    = (Raise AssertionError, w_cached).
Proof.
  split; [|split]; apply query_buildjson_info_requires_ints.
  - left. reflexivity.
  - right. reflexivity.
  - right. reflexivity.
Defined.

(** In the archive of 2015-06-02 the request id 2 is shared by two records
    and followed by entries that are no job records: the first record is
    returned. *)
Lemma query_buildjson_info_short_circuits_witness :
  _daily_jobs loads_examples host_utc t_midnight w_cached
    = (Ok archive_2015_06_02, w_cached)
  /\ query_buildjson_info loads_examples host_utc (JInt t_midnight) (JInt 2) w_cached
    = (Ok job_a, w_cached)
  /\ query_buildjson_info loads_examples host_utc (JInt t_midnight) (JInt 3) w_cached
    = (Ok job_b, w_cached).
Proof.
  assert (Hday : _daily_jobs loads_examples host_utc t_midnight w_cached
                 = (Ok archive_2015_06_02, w_cached)) by (vm_compute; reflexivity).
  assert (Ha : is_job_record job_a).
  { exists [JInt 1; JInt 2]. vm_compute. reflexivity. }
  split; [exact Hday|]. split.
  - apply (query_buildjson_info_short_circuits loads_examples host_utc t_midnight 2
             w_cached w_cached archive_2015_06_02 []
             [job_b; JObj {["builder_id" := JInt 7]}; JNull] job_a Hday).
    + vm_compute. reflexivity.
    + constructor.
    + constructor.
    + vm_compute. reflexivity.
  - apply (query_buildjson_info_short_circuits loads_examples host_utc t_midnight 3
             w_cached w_cached archive_2015_06_02 [job_a]
             [JObj {["builder_id" := JInt 7]}; JNull] job_b Hday).
    + vm_compute. reflexivity.
    + repeat constructor. exact Ha.
    + repeat constructor.
    + vm_compute. reflexivity.
Defined.

(** Without the short circuit the scan would fail: a request id that no
    record has reaches the entry without [request_ids]. *)
Example query_buildjson_info_malformed_record :
  query_buildjson_info loads_examples host_utc (JInt t_midnight) (JInt 4) w_cached
    = (Raise (KeyError "request_ids"), w_cached).
Proof. vm_compute. reflexivity. Qed.

(** Three calls on 2015-06-01 from an empty directory: the server cannot be
    reached for the first, answers the second, and the third is served
    from disk. *)
Lemma daily_jobs_archive_fetched_once_witness :
  daily_jobs_run loads_examples host_flaky [t_claimed; t_afternoon; t_evening] w_empty
    = ([Raise RequestException; Ok archive_2015_06_01; Ok archive_2015_06_01],
       w_after_three_calls)
  /\ (forall f, (fetches (url_of f) (requests_log w_after_three_calls) <= 1)%nat).
Proof.
  assert (Hrun : daily_jobs_run loads_examples host_flaky
                   [t_claimed; t_afternoon; t_evening] w_empty
                 = ([Raise RequestException; Ok archive_2015_06_01;
                     Ok archive_2015_06_01], w_after_three_calls))
    by (vm_compute; reflexivity).
  split; [exact Hrun|].
  destruct (daily_jobs_archive_fetched_once loads_examples host_flaky _ _ _ _ Hrun)
    as (new & Hlog & _ & Hone & _).
  replace (requests_log w_after_three_calls) with new by (symmetry; exact Hlog).
  exact Hone.
Defined.

(** Two hosts on UTC use the same file for midnight of 2015-06-02. *)
Lemma daily_jobs_date_is_host_local_witness :
  utcoffset host_utc t_midnight = utcoffset host_serving t_midnight
  /\ data_file_at host_utc t_midnight = data_file_at host_serving t_midnight
  /\ data_file_at host_utc t_midnight = Ok "builds-2015-06-02.js"%string.
Proof.
  assert (Hoff : utcoffset host_utc t_midnight = utcoffset host_serving t_midnight)
    by reflexivity.
  split; [exact Hoff|]. split.
  - apply (daily_jobs_date_is_host_local loads_examples host_utc host_serving
             t_midnight Hoff).
  - vm_compute. reflexivity.
Defined.

(** The flaky server: the first call fails and leaves no file. *)
Lemma daily_jobs_transfer_failure_not_cached_witness :
  data_file_at host_flaky t_claimed = Ok "builds-2015-06-01.js"%string
  /\ exists w',
       _daily_jobs loads_examples host_flaky t_claimed w_empty
         = (Raise RequestException, w')
       /\ files w' = files w_empty.
Proof.
  assert (Hf : data_file_at host_flaky t_claimed = Ok "builds-2015-06-01.js"%string)
    by (vm_compute; reflexivity).
  split; [exact Hf|].
  destruct (daily_jobs_transfer_failure_not_cached loads_examples host_flaky
              t_claimed w_empty "builds-2015-06-01.js" Hf)
    as (w' & Hcall & Hfiles & _).
  - vm_compute. reflexivity.
  - vm_compute. reflexivity.
  - exists w'. split; assumption.
Defined.

(** The server that answers 404: the body is stored, decoding it fails,
    and the second call finds the file and sends no request. *)
Example daily_jobs_404_twice :
  let w1 :=
    {| files := {["builds-2015-06-01.js"%string := "Not Found"%string]};
       requests_log :=
         [(url_of "builds-2015-06-01.js",
           Some {| status_code := 404; content := "Not Found" |})] |} in
  _daily_jobs loads_examples host_404 t_claimed w_empty = (Raise ValueError, w1)
  /\ _daily_jobs loads_examples host_404 t_claimed w1 = (Raise ValueError, w1).
Proof. split; vm_compute; reflexivity. Qed.

(** The test [test_with_clobber]: both caches hold another registry, the
    remote one is returned and stored. *)
Lemma query_repositories_clobber_witness :
  remote_tests (network_calls tiers_stale) = Some registry_tests
  /\ exists s',
       query_repositories load_examples dump_examples remote_tests true tiers_stale
         = (Done registry_tests, s')
       /\ REPOSITORIES s' = registry_tests
       /\ snapshot s' = Some (dump_examples registry_tests)
       /\ accesses s' = accesses tiers_stale ++ [RemoteFetch; DiskWrite].
Proof.
  split; [reflexivity|].
  apply (query_repositories_clobber load_examples dump_examples remote_tests tiers_stale).
  reflexivity.
Defined.

(** The tests [test_in_memory_cache] and [test_file_cache]. *)
Lemma query_repositories_resolution_order_witness :
  query_repositories load_examples dump_examples remote_tests false tiers_stale
    = (Done registry_other, tiers_stale)
  /\ (query_repositories load_examples dump_examples remote_tests false tiers_disk).1
    = Done registry_other
  /\ network_calls
       (query_repositories load_examples dump_examples remote_tests false tiers_disk).2
    = network_calls tiers_disk.
Proof.
  split; [|split].
  - apply (query_repositories_resolution_order load_examples dump_examples
             remote_tests tiers_stale).
    apply (bool_decide_unpack _). vm_compute. exact I.
  - apply (query_repositories_resolution_order load_examples dump_examples
             remote_tests tiers_disk) with (text := dump_examples registry_other).
    + reflexivity.
    + reflexivity.
    + vm_compute. reflexivity.
  - apply (query_repositories_resolution_order load_examples dump_examples
             remote_tests tiers_disk) with (text := dump_examples registry_other).
    + reflexivity.
    + reflexivity.
Defined.

(** The test [test_call_without_any_cache]: the remote registry is
    returned, kept in memory and on disk, and returned again from memory. *)
Lemma query_repositories_writes_through_witness :
  let s' :=
    {| REPOSITORIES := registry_tests;
       snapshot := Some (dump_examples registry_tests);
       accesses := [DiskProbe; RemoteFetch; DiskWrite] |} in
  query_repositories load_examples dump_examples remote_tests false tiers_cold
    = (Done registry_tests, s')
  /\ query_repositories load_examples dump_examples remote_tests false s'
    = (Done registry_tests, s').
Proof.
  intros s'.
  assert (Hres : query_repositories load_examples dump_examples remote_tests false
                   tiers_cold = (Done registry_tests, s'))
    by (vm_compute; reflexivity).
  split; [exact Hres|].
  apply (query_repositories_writes_through load_examples dump_examples remote_tests
           false tiers_cold s' registry_tests Hres).
  apply (bool_decide_unpack _). vm_compute. exact I.
Defined.

(** The tests of [query_repo_url]: the URL of [repo1], and no entry for
    [not-a-repo]. *)
Lemma query_repo_url_lookup_witness :
  query_repo_url load_examples dump_examples remote_tests "repo1" tiers_cold
    = (Done "https://hg.mozilla.org/releases/repo1"%string,
       (query_repositories load_examples dump_examples remote_tests false tiers_cold).2)
  /\ query_repo_url load_examples dump_examples remote_tests "not-a-repo" tiers_cold
    = (Fail UnknownRepository,
       (query_repositories load_examples dump_examples remote_tests false tiers_cold).2).
Proof.
  assert (Hres : query_repositories load_examples dump_examples remote_tests false
                   tiers_cold
                 = (Done registry_tests,
                    (query_repositories load_examples dump_examples remote_tests
                       false tiers_cold).2))
    by (vm_compute; reflexivity).
  split.
  - apply (proj1 (query_repo_url_lookup load_examples dump_examples remote_tests
                    tiers_cold _ registry_tests "repo1" Hres)
             {| repo := "https://hg.mozilla.org/releases/repo1";
                graph_branches := ["Repo1"%string];
                repo_type := "hg" |}).
    vm_compute. reflexivity.
  - apply (proj2 (query_repo_url_lookup load_examples dump_examples remote_tests
                    tiers_cold _ registry_tests "not-a-repo" Hres)).
    vm_compute. reflexivity.
Defined.

(** * Further facts about [mozci/buildjson.py] *)

(** ** What a call of [_daily_jobs] touches *)

Section CallFacts.

Variable json_loads : string -> option value.
Variable h : host.

(** X1: a call of [_daily_jobs] keeps every file that exists as it is,
    changes no file but the archive of the day of its timestamp, and
    sends at most one request, which is for that archive and only when it
    is not on disk. *)
Theorem daily_jobs_touches_only_its_archive (t : Z) (w w' : world)
    (r : result value) :
  _daily_jobs json_loads h t w = (r, w') ->
  (forall g text, files w !! g = Some text -> files w' !! g = Some text)
  /\ (forall g, data_file_at h t ≠ Ok g -> files w' !! g = files w !! g)
  /\ (requests_log w' = requests_log w
      \/ exists f answer,
           data_file_at h t = Ok f
           /\ files w !! f = None
           /\ requests_log w' = requests_log w ++ [(url_of f, answer)]).
Proof.
  intros Hcall. pose proof (daily_jobs_steps json_loads h t w) as Hstep.
  rewrite Hcall in Hstep. simpl in Hstep.
  inversion Hstep as [e He|f text Hf Hfile|f Hf Hfile Hr|f r0 Hf Hfile Hr]; subst.
  - repeat split; auto.
  - repeat split; auto.
  - repeat split; auto. right. exists f, None. auto.
  - split; [|split].
    + intros g text Hg. simpl. rewrite lookup_insert_ne; [done|congruence].
    + intros g Hg. simpl. rewrite lookup_insert_ne; [done|congruence].
    + right. exists f, (Some r0). auto.
Qed.

(** X2: when the archive is not on disk and the server answers, the body
    of the answer, written in pieces of 1024, is in the file whole, and
    the call returns what the body decodes to; the status code of the
    answer plays no part. *)
Theorem daily_jobs_stores_body_whole (t : Z) (w : world) (f : string)
    (code : Z) (body : string) :
  data_file_at h t = Ok f ->
  files w !! f = None ->
  remote h (length (requests_log w)) (url_of f)
    = Some {| status_code := code; content := body |} ->
  exists w',
    _daily_jobs json_loads h t w = (decode json_loads body, w')
    /\ files w' !! f = Some body
    /\ requests_log w' = requests_log w
         ++ [(url_of f, Some {| status_code := code; content := body |})].
Proof.
  intros (day & Hd & ->)%data_file_at_inv Hfile Hr.
  rewrite (daily_jobs_fetched json_loads h t day _ w Hd Hfile Hr).
  eexists. split; [reflexivity|]. simpl. split; [apply lookup_insert_eq|done].
Qed.

(** X3: after a call that did not fail in the transfer, for a timestamp
    that has a date, the archive of the day is on disk, and what the call
    returned or raised is what the file decodes to. *)
Theorem daily_jobs_result_is_on_disk (t : Z) (w w' : world) (r : result value)
    (f : string) :
  _daily_jobs json_loads h t w = (r, w') ->
  data_file_at h t = Ok f ->
  r ≠ Raise RequestException ->
  exists text, files w' !! f = Some text /\ r = decode json_loads text.
Proof.
  intros Hcall Hf Hr. pose proof (daily_jobs_steps json_loads h t w) as Hstep.
  rewrite Hcall in Hstep. simpl in Hstep.
  inversion Hstep as [e He|f' text Hf' Hfile|f' Hf' Hfile Hr'|f' r0 Hf' Hfile Hr'];
    subst.
  - apply data_file_at_inv in Hf as (day & Hd & _). congruence.
  - exists text. split; [congruence|done].
  - done.
  - exists (content r0). assert (f' = f) as -> by congruence.
    simpl. split; [apply lookup_insert_eq|done].
Qed.

Lemma daily_jobs_again (t : Z) (w w' : world) (r : result value) :
  _daily_jobs json_loads h t w = (r, w') ->
  r ≠ Raise RequestException ->
  _daily_jobs json_loads h t w' = (r, w').
Proof.
  intros Hcall Hr. pose proof (daily_jobs_steps json_loads h t w) as Hstep.
  rewrite Hcall in Hstep. simpl in Hstep.
  inversion Hstep as [e He|f text Hf Hfile|f Hf Hfile Hr'|f r0 Hf Hfile Hr'];
    subst; try done.
  apply data_file_at_inv in Hf as (day & Hd & ->).
  apply (daily_jobs_cached json_loads h t day (content r0)); [done|].
  simpl. apply lookup_insert_eq.
Qed.

(** [query_buildjson_info], statement by statement. *)
Lemma query_buildjson_info_unfold (claimed_at request_id : value) (w : world) :
  query_buildjson_info json_loads h claimed_at request_id w =
    match assert_int request_id with
    | Raise e => (Raise e, w)
    | Ok rid =>
        match assert_int claimed_at with
        | Raise e => (Raise e, w)
        | Ok ts =>
            match _daily_jobs json_loads h ts w with
            | (Ok status_data, w') =>
                (builds ← getitem status_data "builds";
                 jobs ← iter builds;
                 scan_builds rid jobs, w')
            | (Raise e, w') => (Raise e, w')
            end
        end
    end.
Proof.
  unfold query_buildjson_info, mbind, M_bind, lift.
  destruct (assert_int request_id); [|reflexivity].
  destruct (assert_int claimed_at); reflexivity.
Qed.

(** X4: [query_buildjson_info] can be repeated: unless the transfer
    failed, the same call on the world the first one left returns or
    raises the same and changes nothing more. *)
Theorem query_buildjson_info_idempotent (claimed_at request_id : value)
    (w w' : world) (r : result value) :
  query_buildjson_info json_loads h claimed_at request_id w = (r, w') ->
  r ≠ Raise RequestException ->
  query_buildjson_info json_loads h claimed_at request_id w' = (r, w').
Proof.
  rewrite !query_buildjson_info_unfold.
  destruct (assert_int request_id) as [rid|e]; [|by intros [= <- <-]].
  destruct (assert_int claimed_at) as [ts|e]; [|by intros [= <- <-]].
  destruct (_daily_jobs json_loads h ts w) as [r0 w0] eqn:Hcall.
  destruct r0 as [status|e].
  - intros [= <- <-] _.
    by rewrite (daily_jobs_again ts w w0 (Ok status) Hcall).
  - intros [= <- <-] Hr.
    by rewrite (daily_jobs_again ts w w0 (Raise e) Hcall).
Qed.

(** X5: once a call for a day has returned a record or [None], a call for
    any request id and any timestamp of that day leaves the world as it
    is: no request is sent and no file is written. *)
Theorem query_buildjson_info_same_day_offline (t1 t2 rid1 rid2 : Z)
    (w w' : world) (v : value) :
  query_buildjson_info json_loads h (JInt t1) (JInt rid1) w = (Ok v, w') ->
  data_file_at h t2 = data_file_at h t1 ->
  (query_buildjson_info json_loads h (JInt t2) (JInt rid2) w').2 = w'.
Proof.
  rewrite !query_buildjson_info_unfold. cbn [assert_int].
  destruct (_daily_jobs json_loads h t1 w) as [r0 w0] eqn:Hcall.
  destruct r0 as [status|e]; [|intros [= ]].
  intros [= _ <-] Hsame.
  destruct (fromtimestamp h t1) as [day|e] eqn:Hd.
  - pose proof (data_file_at_day h t1 day Hd) as Hf1.
    destruct (daily_jobs_ok_file json_loads h t1 w w0 status _ Hcall Hf1)
      as (text & Hfile & _).
    rewrite Hf1 in Hsame. apply data_file_at_inv in Hsame as (day2 & Hd2 & Heq).
    rewrite Heq in Hfile.
    rewrite (daily_jobs_cached json_loads h t2 day2 text w0 Hd2 Hfile).
    by destruct (decode json_loads text).
  - by rewrite (daily_jobs_out_of_range json_loads h t1 e w Hd) in Hcall.
Qed.

End CallFacts.

(** ** What the scan returns and raises *)

(** One turn of the loop, on any entry. *)
Lemma scan_builds_turn (rid : Z) (job : value) (rest : list value) (v : value) :
  scan_builds rid (job :: rest) = Ok v ->
  (job_matches rid job = true /\ v = job)
  \/ (job_matches rid job = false /\ scan_builds rid rest = Ok v).
Proof.
  cbn [scan_builds]. unfold mbind, result_bind, job_matches, request_ids_of.
  destruct job as [| | | | | |m]; simpl; try discriminate.
  destruct (m !! "request_ids"%string) as [[| | | | |l|m']|]; simpl;
    try discriminate.
  - destruct (existsb (py_eq_int rid) l); [intros [= <-]|]; auto.
  - auto.
Qed.

Lemma scan_builds_sound (rid : Z) (jobs : list value) (v : value) :
  scan_builds rid jobs = Ok v ->
  (v = JNull /\ Forall (fun job => job_matches rid job = false) jobs)
  \/ (v ∈ jobs /\ job_matches rid v = true).
Proof.
  induction jobs as [|job jobs IH]; intros Hscan.
  - injection Hscan as <-. left. split; [done|constructor].
  - apply scan_builds_turn in Hscan as [[Hm ->]|[Hm Hrest]].
    + right. split; [apply elem_of_cons; by left|done].
    + destruct (IH Hrest) as [[-> Hall]|[Hin Hv]].
      * left. split; [done|by constructor].
      * right. split; [apply elem_of_cons; by right|done].
Qed.

Section ScanFacts.

Variable json_loads : string -> option value.
Variable h : host.

(** X6: whatever the shape of the archive, a call that returns has
    scanned the [builds] of the day's document; it returns [None] only if
    no entry of them has [request_id] among its [request_ids], and
    otherwise an entry of them that has it. *)
Theorem query_buildjson_info_sound (ts rid : Z) (w w' : world) (v : value) :
  query_buildjson_info json_loads h (JInt ts) (JInt rid) w = (Ok v, w') ->
  exists status_data builds jobs,
    _daily_jobs json_loads h ts w = (Ok status_data, w')
    /\ getitem status_data "builds" = Ok builds
    /\ iter builds = Ok jobs
    /\ ((v = JNull /\ Forall (fun job => job_matches rid job = false) jobs)
        \/ (v ∈ jobs /\ job_matches rid v = true)).
Proof.
  rewrite query_buildjson_info_unfold. cbn [assert_int].
  destruct (_daily_jobs json_loads h ts w) as [[status|e] w0]; [|intros [= ]].
  unfold mbind, result_bind.
  destruct (getitem status "builds") as [builds|e] eqn:Hb; [|intros [= ]].
  destruct (iter builds) as [jobs|e] eqn:Hi; [|intros [= ]].
  intros [= Hscan <-]. exists status, builds, jobs.
  repeat split; try done. by apply scan_builds_sound.
Qed.

(** X7: an entry without [request_ids] that the scan reaches, no record
    before it having the request id, makes the call fail with [KeyError],
    also when a later record has the request id. *)
Theorem query_buildjson_info_missing_request_ids (ts rid : Z) (w w' : world)
    (status_data : value) (pre post : list value) (m : gmap string value) :
  _daily_jobs json_loads h ts w = (Ok status_data, w') ->
  getitem status_data "builds" = Ok (JList (pre ++ JObj m :: post)) ->
  Forall is_job_record pre ->
  Forall (fun job => job_matches rid job = false) pre ->
  m !! "request_ids" = None ->
  query_buildjson_info json_loads h (JInt ts) (JInt rid) w
    = (Raise (KeyError "request_ids"), w').
Proof.
  intros Hday Hb Hrec Hno Hm.
  rewrite (query_buildjson_info_scan json_loads h ts rid w w' status_data _ Hday Hb).
  rewrite scan_builds_skip by assumption.
  cbn [scan_builds getitem]. by rewrite Hm.
Qed.

(** X8: archives of another shape. A document that is no dict raises
    [TypeError]; a dict without [builds] raises [KeyError]; [builds] that
    are [null], a bool or a number, or a dict or a string that is not
    empty, raise [TypeError]; empty [builds], be they a list, a dict or a
    string, give [None]. *)
Theorem query_buildjson_info_unexpected_archive (ts rid : Z) (w w' : world)
    (status_data : value) :
  _daily_jobs json_loads h ts w = (Ok status_data, w') ->
  ((forall m, status_data ≠ JObj m) ->
   query_buildjson_info json_loads h (JInt ts) (JInt rid) w = (Raise TypeError, w'))
  /\ (forall m, status_data = JObj m -> m !! "builds" = None ->
      query_buildjson_info json_loads h (JInt ts) (JInt rid) w
        = (Raise (KeyError "builds"), w'))
  /\ (forall builds,
        getitem status_data "builds" = Ok builds ->
        (builds = JList [] \/ builds = JObj ∅ \/ builds = JStr EmptyString ->
         query_buildjson_info json_loads h (JInt ts) (JInt rid) w = (Ok JNull, w'))
        /\ ((forall l, builds ≠ JList l) ->
            builds ≠ JObj ∅ -> builds ≠ JStr EmptyString ->
            query_buildjson_info json_loads h (JInt ts) (JInt rid) w
              = (Raise TypeError, w'))).
Proof.
  intros Hday. rewrite query_buildjson_info_unfold. cbn [assert_int].
  rewrite Hday. unfold mbind, result_bind. split; [|split].
  - intros Hnot. destruct status_data as [| | | | | |m]; try reflexivity.
    by destruct (Hnot m).
  - intros m -> Hm. simpl. by rewrite Hm.
  - intros builds Hb. rewrite Hb. split.
    + intros [-> | [-> | ->]]; reflexivity.
    + intros Hlist Hobj Hstr.
      destruct builds as [| | | |s|l|m]; try reflexivity.
      * destruct s as [|c s]; [done|reflexivity].
      * by destruct (Hlist l).
      * simpl. destruct (map_to_list m) as [|[k x] items] eqn:Hitems.
        -- apply map_to_list_empty_iff in Hitems. by subst m.
        -- reflexivity.
Qed.

End ScanFacts.

(** X9: the scan of a longer list. What the scan of a list finds or
    raises, it finds or raises when entries are appended; only when it
    comes to the end without a match does it go on with the entries
    appended. *)
Theorem scan_builds_app (rid : Z) (jobs more : list value) :
  scan_builds rid (jobs ++ more) =
    match scan_builds rid jobs with
    | Ok JNull => scan_builds rid more
    | found_or_raised => found_or_raised
    end.
Proof.
  induction jobs as [|job jobs IH]; [reflexivity|].
  rewrite <- app_comm_cons. cbn [scan_builds]. unfold mbind, result_bind.
  destruct job as [| | | | | |m]; try reflexivity. simpl.
  destruct (m !! "request_ids"%string) as [ids|]; [|reflexivity].
  destruct (contains ids rid) as [[|]|e]; [reflexivity|apply IH|reflexivity].
Qed.

(** ** Days and archive files *)

Ltac split_tests :=
  repeat match goal with
  | |- context [?a <? ?b] => destruct (Z.ltb_spec a b)
  | |- context [?a <=? ?b] => destruct (Z.leb_spec a b)
  end.

(** The day of the 400-year cycle gives a year of the cycle and a day of
    the year, counted from the first of March. *)
Lemma cycle_year_bounds (doe : Z) :
  0 <= doe < 146097 ->
  let yoe := (doe - doe / 1460 + doe / 36524 - doe / 146096) / 365 in
  let doy := doe - (365 * yoe + yoe / 4 - yoe / 100) in
  0 <= yoe <= 399 /\ 0 <= doy <= 365
  /\ (yoe = 0 -> doy = doe) /\ (doe < 306 -> yoe = 0)
  /\ (yoe = 399 -> doy = doe - 145731) /\ (146037 <= doe -> yoe = 399).
Proof.
  intros H yoe doy. subst doy yoe.
  Z.to_euclidean_division_equations. lia.
Qed.

Lemma cycle_month_bounds (doy : Z) :
  0 <= doy <= 365 ->
  let mp := (5 * doy + 2) / 153 in
  0 <= mp <= 11 /\ 1 <= doy - (153 * mp + 2) / 5 + 1 <= 31
  /\ (mp < 10 <-> doy < 306).
Proof.
  intros H mp. subst mp.
  Z.to_euclidean_division_equations. lia.
Qed.

(** Months are 1 to 12 and days 1 to 31; the years 1 to 9999 are the days
    from 0001-01-01 to 9999-12-31. *)
Lemma civil_from_days_fields (z y m d : Z) :
  civil_from_days z = (y, m, d) ->
  1 <= m <= 12 /\ 1 <= d <= 31
  /\ (1 <= y <-> -719162 <= z) /\ (y <= 9999 <-> z <= 2932896).
Proof.
  unfold civil_from_days. cbv zeta.
  set (era := (z + 719468) / 146097).
  set (doe := z + 719468 - era * 146097).
  assert (Hdoe : 0 <= doe < 146097).
  { subst doe era. Z.to_euclidean_division_equations. lia. }
  destruct (cycle_year_bounds doe Hdoe) as (Hyoe & Hdoy & H0 & H0' & H399 & H399').
  set (yoe := (doe - doe / 1460 + doe / 36524 - doe / 146096) / 365) in *.
  set (doy := doe - (365 * yoe + yoe / 4 - yoe / 100)) in *.
  destruct (cycle_month_bounds doy Hdoy) as (Hmp & Hd & Hadj).
  set (mp := (5 * doy + 2) / 153) in *.
  assert (z = era * 146097 + doe - 719468) by (subst doe; lia).
  clearbody mp. clearbody doy. clearbody yoe. clearbody doe. clearbody era.
  intros [[Hy Hm]%pair_equal_spec Hd']%pair_equal_spec. subst y m d.
  split_tests; lia.
Qed.

(** The date determines the day. *)
Lemma days_from_civil_from_days (z : Z) : days_from_civil (civil_from_days z) = z.
Proof.
  unfold civil_from_days, days_from_civil. cbv zeta.
  split_tests; Z.to_euclidean_division_equations; lia.
Qed.

Lemma zfill_length (width : nat) (n : Z) : String.length (zfill width n) = width.
Proof.
  revert n; induction width as [|width IH]; intros n; [reflexivity|].
  cbn [zfill]. rewrite string_app_length, IH. simpl. lia.
Qed.

Lemma string_app_inj_length (a a' b b' : string) :
  String.length a = String.length a' ->
  a +:+ b = a' +:+ b' -> a = a' /\ b = b'.
Proof.
  revert a'; induction a as [|c a IH]; intros [|c' a'] Hlen Heq;
    try discriminate.
  - done.
  - rewrite !string_app_cons in Heq. injection Heq as -> Heq.
    injection Hlen as Hlen. destruct (IH a' Hlen Heq) as [-> ->]. done.
Qed.

Lemma digit_inj (a b : Z) : digit a = digit b -> a mod 10 = b mod 10.
Proof.
  unfold digit. intros Heq. apply (f_equal nat_of_ascii) in Heq.
  pose proof (Z.mod_pos_bound a 10 eq_refl).
  pose proof (Z.mod_pos_bound b 10 eq_refl).
  rewrite !nat_ascii_embedding in Heq by lia. lia.
Qed.

Lemma zfill_inj (width : nat) (n n' : Z) :
  0 <= n < 10 ^ Z.of_nat width ->
  0 <= n' < 10 ^ Z.of_nat width ->
  zfill width n = zfill width n' -> n = n'.
Proof.
  revert n n'; induction width as [|width IH]; intros n n' Hn Hn' Heq.
  - simpl in *. lia.
  - rewrite Nat2Z.inj_succ, Z.pow_succ_r in Hn, Hn' by lia.
    cbn [zfill] in Heq.
    apply string_app_inj_length in Heq as [Hhead Hlast];
      [|by rewrite !zfill_length].
    injection Hlast as Hlast%digit_inj.
    apply IH in Hhead.
    + Z.to_euclidean_division_equations. lia.
    + Z.to_euclidean_division_equations. lia.
    + Z.to_euclidean_division_equations. lia.
Qed.

Lemma strftime_Ymd_inj (y m d y' m' d' : Z) :
  0 <= y < 10000 -> 0 <= m < 100 -> 0 <= d < 100 ->
  0 <= y' < 10000 -> 0 <= m' < 100 -> 0 <= d' < 100 ->
  strftime_Ymd (y, m, d) = strftime_Ymd (y', m', d') ->
  (y, m, d) = (y', m', d').
Proof.
  intros Hy Hm Hd Hy' Hm' Hd'. unfold strftime_Ymd.
  intros [Hyy Heq]%string_app_inj_length; [|by rewrite !zfill_length].
  apply string_app_inv_head in Heq.
  apply string_app_inj_length in Heq as [Hmm Heq]; [|by rewrite !zfill_length].
  apply string_app_inv_head in Heq.
  apply (zfill_inj 4) in Hyy; [|done|done].
  apply (zfill_inj 2) in Hmm; [|done|done].
  apply (zfill_inj 2) in Heq; [|done|done].
  by subst.
Qed.

Lemma data_file_of_inj (date date' : string) :
  data_file_of date = data_file_of date' -> date = date'.
Proof.
  unfold data_file_of. intros Heq%string_app_inv_head.
  by apply string_app_inv_tail in Heq.
Qed.

Lemma fromtimestamp_inv (h : host) (t : Z) (day : Z * Z * Z) :
  fromtimestamp h t = Ok day ->
  day = civil_from_days (local_day h t) /\ 1 <= day.1.1 <= 9999.
Proof.
  unfold fromtimestamp, local_day.
  destruct (civil_from_days ((t + utcoffset h t) / 86400)) as [[y m] d].
  destruct ((1 <=? y) && (y <=? 9999)) eqn:Hrange; [|discriminate].
  intros [= <-]. simpl. split; [done|lia].
Qed.

Lemma fromtimestamp_same_day (h1 h2 : host) (t1 t2 : Z) :
  local_day h1 t1 = local_day h2 t2 -> fromtimestamp h1 t1 = fromtimestamp h2 t2.
Proof. unfold fromtimestamp, local_day. by intros ->. Qed.

(** X10: two instants, on one host or on two, use the same archive file
    exactly when they are on the same local day. *)
Theorem data_file_same_local_day (h1 h2 : host) (t1 t2 : Z) (f : string) :
  data_file_at h1 t1 = Ok f ->
  data_file_at h2 t2 = Ok f <-> local_day h1 t1 = local_day h2 t2.
Proof.
  intros Hf1. split.
  - intros Hf2.
    apply data_file_at_inv in Hf1 as (day1 & Hd1 & ->).
    apply data_file_at_inv in Hf2 as (day2 & Hd2 & Heq).
    apply data_file_of_inj in Heq.
    apply fromtimestamp_inv in Hd1 as [Hc1 Hy1], Hd2 as [Hc2 Hy2].
    destruct day1 as [[y1 m1] d1], day2 as [[y2 m2] d2]. simpl in Hy1, Hy2.
    symmetry in Hc1, Hc2.
    destruct (civil_from_days_fields _ _ _ _ Hc1) as (Hm1 & Hdd1 & _).
    destruct (civil_from_days_fields _ _ _ _ Hc2) as (Hm2 & Hdd2 & _).
    apply strftime_Ymd_inj in Heq; try lia.
    rewrite <- (days_from_civil_from_days (local_day h1 t1)).
    rewrite <- (days_from_civil_from_days (local_day h2 t2)).
    by rewrite Hc1, Hc2, Heq.
  - intros Hday. unfold data_file_at in *.
    by rewrite <- (fromtimestamp_same_day h1 h2 t1 t2 Hday).
Qed.

(** ** The further facts on the data of the examples *)

(** The archive of 2015-06-01 is fetched into an empty directory: no
    other file appears. *)
Lemma daily_jobs_touches_only_its_archive_witness :
  _daily_jobs loads_examples host_serving t_claimed w_empty
    = (Ok archive_2015_06_01, w_fetched)
  /\ (forall g, data_file_at host_serving t_claimed ≠ Ok g ->
        files w_fetched !! g = files w_empty !! g).
Proof.
  assert (Hcall : _daily_jobs loads_examples host_serving t_claimed w_empty
                  = (Ok archive_2015_06_01, w_fetched)) by (vm_compute; reflexivity).
  split; [exact Hcall|].
  apply (daily_jobs_touches_only_its_archive loads_examples host_serving t_claimed
           w_empty w_fetched (Ok archive_2015_06_01) Hcall).
Defined.

(** The body of a 404 answer is stored like any other. *)
Lemma daily_jobs_stores_body_whole_witness :
  data_file_at host_404 t_claimed = Ok "builds-2015-06-01.js"%string
  /\ files w_empty !! "builds-2015-06-01.js"%string = None
  /\ exists w',
       _daily_jobs loads_examples host_404 t_claimed w_empty
         = (decode loads_examples "Not Found", w')
       /\ files w' !! "builds-2015-06-01.js"%string = Some "Not Found"%string.
Proof.
  assert (Hf : data_file_at host_404 t_claimed = Ok "builds-2015-06-01.js"%string)
    by (vm_compute; reflexivity).
  assert (Hfile : files w_empty !! "builds-2015-06-01.js"%string = None)
    by (vm_compute; reflexivity).
  split; [exact Hf|]. split; [exact Hfile|].
  destruct (daily_jobs_stores_body_whole loads_examples host_404 t_claimed w_empty
              "builds-2015-06-01.js" 404 "Not Found" Hf Hfile)
    as (w' & Hcall & Hstored & _).
  - vm_compute. reflexivity.
  - exists w'. split; assumption.
Defined.

Lemma daily_jobs_result_is_on_disk_witness :
  _daily_jobs loads_examples host_404 t_claimed w_empty
    = (Raise ValueError, w_not_found)
  /\ exists text,
       files w_not_found !! "builds-2015-06-01.js"%string = Some text
       /\ Raise ValueError = decode loads_examples text.
Proof.
  assert (Hcall : _daily_jobs loads_examples host_404 t_claimed w_empty
                  = (Raise ValueError, w_not_found)) by (vm_compute; reflexivity).
  split; [exact Hcall|].
  apply (daily_jobs_result_is_on_disk loads_examples host_404 t_claimed w_empty
           w_not_found (Raise ValueError) "builds-2015-06-01.js" Hcall).
  - vm_compute. reflexivity.
  - discriminate.
Defined.

(** The job of the tests, asked for twice. *)
Lemma query_buildjson_info_idempotent_witness :
  query_buildjson_info loads_examples host_serving (JInt t_claimed) (JInt 71123549)
    w_empty = (Ok job_71123549, w_fetched)
  /\ query_buildjson_info loads_examples host_serving (JInt t_claimed) (JInt 71123549)
       w_fetched = (Ok job_71123549, w_fetched).
Proof.
  assert (Hcall : query_buildjson_info loads_examples host_serving (JInt t_claimed)
                    (JInt 71123549) w_empty = (Ok job_71123549, w_fetched))
    by (vm_compute; reflexivity).
  split; [exact Hcall|].
  apply (query_buildjson_info_idempotent loads_examples host_serving _ _ _ _ _ Hcall).
  discriminate.
Defined.

(** After it, another request id at another time of the day costs no
    request. *)
Lemma query_buildjson_info_same_day_offline_witness :
  data_file_at host_serving t_evening = data_file_at host_serving t_claimed
  /\ (query_buildjson_info loads_examples host_serving (JInt t_evening) (JInt 999)
        w_fetched).2 = w_fetched.
Proof.
  assert (Hsame : data_file_at host_serving t_evening
                  = data_file_at host_serving t_claimed) by (vm_compute; reflexivity).
  split; [exact Hsame|].
  apply (query_buildjson_info_same_day_offline loads_examples host_serving
           t_claimed t_evening 71123549 999 w_empty w_fetched job_71123549).
  - vm_compute. reflexivity.
  - exact Hsame.
Defined.

Lemma query_buildjson_info_sound_witness :
  exists status_data builds jobs,
    _daily_jobs loads_examples host_utc t_midnight w_cached = (Ok status_data, w_cached)
    /\ getitem status_data "builds" = Ok builds
    /\ iter builds = Ok jobs
    /\ ((job_b = JNull /\ Forall (fun job => job_matches 3 job = false) jobs)
        \/ (job_b ∈ jobs /\ job_matches 3 job_b = true)).
Proof.
  apply (query_buildjson_info_sound loads_examples host_utc t_midnight 3
           w_cached w_cached job_b).
  vm_compute. reflexivity.
Defined.

(** The entry without [request_ids] of the archive of 2015-06-02. *)
Lemma query_buildjson_info_missing_request_ids_witness :
  _daily_jobs loads_examples host_utc t_midnight w_cached
    = (Ok archive_2015_06_02, w_cached)
  /\ query_buildjson_info loads_examples host_utc (JInt t_midnight) (JInt 4) w_cached
    = (Raise (KeyError "request_ids"), w_cached).
Proof.
  assert (Hday : _daily_jobs loads_examples host_utc t_midnight w_cached
                 = (Ok archive_2015_06_02, w_cached)) by (vm_compute; reflexivity).
  split; [exact Hday|].
  apply (query_buildjson_info_missing_request_ids loads_examples host_utc t_midnight 4
           w_cached w_cached archive_2015_06_02 [job_a; job_b] [JNull]
           {["builder_id" := JInt 7]} Hday).
  - vm_compute. reflexivity.
  - repeat constructor.
    + exists [JInt 1; JInt 2]. vm_compute. reflexivity.
    + exists [JInt 2; JInt 3]. vm_compute. reflexivity.
  - repeat constructor.
  - vm_compute. reflexivity.
Defined.

(** A document that is [null], a dict without [builds], and [builds] that
    are a dict with an entry. *)
Lemma query_buildjson_info_unexpected_archive_witness :
  query_buildjson_info loads_shapes host_utc (JInt t_claimed) (JInt 1) w_shapes
    = (Raise TypeError, w_shapes)
  /\ query_buildjson_info loads_shapes host_utc (JInt t_midnight) (JInt 1) w_shapes
    = (Raise (KeyError "builds"), w_shapes)
  /\ query_buildjson_info loads_shapes host_utc (JInt t_next_midnight) (JInt 1) w_shapes
    = (Raise TypeError, w_shapes).
Proof.
  split; [|split].
  - apply (query_buildjson_info_unexpected_archive loads_shapes host_utc t_claimed 1
             w_shapes w_shapes JNull).
    + vm_compute. reflexivity.
    + discriminate.
  - apply (query_buildjson_info_unexpected_archive loads_shapes host_utc t_midnight 1
             w_shapes w_shapes (JObj ∅)) with (m := ∅).
    + vm_compute. reflexivity.
    + reflexivity.
    + vm_compute. reflexivity.
  - apply (query_buildjson_info_unexpected_archive loads_shapes host_utc
             t_next_midnight 1 w_shapes w_shapes
             (JObj {["builds" := JObj {["a" := JInt 1]}]}))
      with (builds := JObj {["a" := JInt 1]}).
    + vm_compute. reflexivity.
    + vm_compute. reflexivity.
    + discriminate.
    + intros Heq.
      apply (f_equal (fun v => match v with
                               | JObj m => m !! "a"%string
                               | _ => None
                               end)) in Heq.
      vm_compute in Heq. discriminate.
    + discriminate.
Defined.

(** Midnight of 2015-06-02 UTC is still 2015-06-01 seven hours west. *)
Lemma data_file_same_local_day_witness :
  data_file_at host_utc t_claimed = Ok "builds-2015-06-01.js"%string
  /\ local_day host_utc t_claimed = local_day host_pdt t_midnight
  /\ data_file_at host_pdt t_midnight = Ok "builds-2015-06-01.js"%string.
Proof.
  assert (Hf : data_file_at host_utc t_claimed = Ok "builds-2015-06-01.js"%string)
    by (vm_compute; reflexivity).
  assert (Hday : local_day host_utc t_claimed = local_day host_pdt t_midnight)
    by (vm_compute; reflexivity).
  split; [exact Hf|]. split; [exact Hday|].
  apply (data_file_same_local_day host_utc host_pdt t_claimed t_midnight _ Hf).
  exact Hday.
Defined.
